(** * pytraccar: the Traccar REST client [TraccarAPI] (src/pytraccar/api.py)

    A shallow embedding of the class [TraccarAPI].  Every method is a
    computation in a state-and-exception monad over
    - the object's own fields ([_token], [_urls]),
    - the state of the transport behind [self._session] (cookies, the
      server), about which nothing is assumed, and
    - the history of the requests handed to the session, kept so that
      statements can speak about what was sent.

    Python values are the JSON fragment of the language, with integers for
    numbers (the client never computes with a number); dictionaries are
    finite maps, compared the way Python's [==] compares them. *)

From stdpp Require Import base option list strings pretty countable gmap fin_maps.
From Stdlib Require Import ZArith.

#[local] Set Warnings "-register-all".
#[local] Open Scope string_scope.
#[local] Open Scope Z_scope.

(** ** Python values *)

(** Hashable values used as dictionary keys.  Python identifies the keys
    [True]/[1] and [False]/[0] (equal values with equal hashes), so a
    boolean key is the integer it equals. *)
Inductive pykey :=
| KNone
| KInt (z : Z)
| KStr (s : string).

#[global] Instance pykey_eq_dec : EqDecision pykey.
Proof. solve_decision. Defined.

#[global] Instance pykey_countable : Countable pykey.
Proof.
  refine (inj_countable'
    (λ k, match k with
          | KNone => inl ()
          | KInt z => inr (inl z)
          | KStr s => inr (inr s)
          end)
    (λ x, match x with
          | inl _ => KNone
          | inr (inl z) => KInt z
          | inr (inr s) => KStr s
          end) _).
  by intros [].
Defined.

Coercion KStr : string >-> pykey.

Inductive pyval :=
| PNone
| PBool (b : bool)
| PInt (z : Z)
| PStr (s : string)
| PList (l : list pyval)
| PDict (d : gmap pykey pyval).

Abbreviation dict := (gmap pykey pyval).

#[global] Instance pyval_inhabited : Inhabited pyval := populate PNone.

(** [bool(v)], the test behind [if not v]. *)
Definition truthy (v : pyval) : bool :=
  match v with
  | PNone => false
  | PBool b => b
  | PInt z => negb (Z.eqb z 0)
  | PStr s => negb (String.eqb s "")
  | PList l => negb (Nat.eqb (length l) 0)
  | PDict d => negb (Nat.eqb (size d) 0)
  end.

(** [v != 0]. [False == 0] holds in Python; a value of another type is never
    equal to [0]. *)
Definition ne_zero (v : pyval) : bool :=
  match v with
  | PInt z => negb (Z.eqb z 0)
  | PBool b => b
  | _ => true
  end.

(** [v is None]. *)
Definition is_None (v : pyval) : bool :=
  match v with
  | PNone => true
  | _ => false
  end.

(** [hash(v)] succeeds: the key [v] stands for in a dictionary display. *)
Definition to_key (v : pyval) : option pykey :=
  match v with
  | PNone => Some KNone
  | PBool b => Some (KInt (if b then 1 else 0))
  | PInt z => Some (KInt z)
  | PStr s => Some (KStr s)
  | PList _ | PDict _ => None
  end.

(** ** Exceptions and results *)

(** The six exception classes of [pytraccar.exceptions], with the keyword
    arguments api.py constructs them with, and the built-in errors the
    methods can run into. *)
Inductive exn :=
| TraccarApiException (info : string)
| BadRequestException (message : string)
| ObjectNotFoundException (obj : pyval) (obj_type : string)
| ForbiddenAccessException
| InvalidTokenException
| UserPermissionException
| UnboundLocalError (name : string)
| IndexError
| KeyError (key : pyval)
| TypeError
| AttributeError
| JSONDecodeError.

Inductive result (A : Type) :=
| Ok (a : A)
| Raise (e : exn).
Arguments Ok {A} a.
Arguments Raise {A} e.

#[global] Instance result_ret : MRet result := λ A a, Ok a.
#[global] Instance result_bind : MBind result := λ A B f r,
  match r with
  | Ok a => f a
  | Raise e => Raise e
  end.
#[global] Instance result_fmap : FMap result := λ A B f r,
  match r with
  | Ok a => Ok (f a)
  | Raise e => Raise e
  end.

(** ** Dictionaries *)

(** A dictionary display [{k1: v1, ..., kn: vn}]: the items are stored from
    left to right, a repeated key keeps the last value. *)
Definition dict_lit (items : list (pykey * pyval)) : dict :=
  foldl (λ d kv, <[kv.1 := kv.2]> d) ∅ items.

(** [d.get(k)]: [None] when the key is missing. *)
Definition dict_get (d : dict) (k : pykey) : pyval :=
  default PNone (d !! k).

Definition key_val (k : pykey) : pyval :=
  match k with
  | KNone => PNone
  | KInt z => PInt z
  | KStr s => PStr s
  end.

(** [d[k]]: [KeyError] when the key is missing. *)
Definition dict_getitem (d : dict) (k : pykey) : result pyval :=
  match d !! k with
  | Some v => Ok v
  | None => Raise (KeyError (key_val k))
  end.

(** [{key: f(key, value) for key, value in d.items()}] *)
Definition dict_comp (f : pykey → pyval → result pyval) (d : dict) : result dict :=
  list_to_map <$> mapM (λ kv, pair kv.1 <$> f kv.1 kv.2) (map_to_list d).

(** [v[0]] *)
Definition getitem0 (v : pyval) : result pyval :=
  match v with
  | PList [] => Raise IndexError
  | PList (x :: _) => Ok x
  | PStr EmptyString => Raise IndexError
  | PStr (String c _) => Ok (PStr (String c EmptyString))
  | PDict d => dict_getitem d (KInt 0)
  | PNone | PBool _ | PInt _ => Raise TypeError
  end.

(** [v.items()] *)
Definition py_items (v : pyval) : result dict :=
  match v with
  | PDict d => Ok d
  | _ => Raise AttributeError
  end.

(** ** Requests and responses *)

Inductive verb := GET | POST | PUT | DELETE.

(** What [data=] carries: a dictionary (sent form-encoded) or a string. *)
Inductive payload :=
| Form (d : dict)
| Text (s : string).

(** The keyword arguments of one call of [requests.Session.get], [post],
    [put] or [delete]; [None] is a keyword that was not passed. *)
Record request := {
  method : verb;
  url : string;
  params : option dict;
  data : option payload;
  json : option pyval;
  headers : option dict;
}.

(** A [requests.Response]: [json_body] is [None] when the body is not JSON,
    in which case [Response.json()] raises. *)
Record response := {
  status_code : Z;
  text : string;
  json_body : option pyval;
}.

Definition response_json (r : response) : result pyval :=
  match json_body r with
  | Some v => Ok v
  | None => Raise JSONDecodeError
  end.

(** ** The client object *)

Record TraccarAPI := {
  _token : pyval;
  _urls : gmap string string;
}.

Definition __init__ (base_url : string) : TraccarAPI := {|
  _token := PStr "";
  _urls :=
    <["permissions" := base_url +:+ "/api/permissions"]> (
    <["groups" := base_url +:+ "/api/groups"]> (
    <["users" := base_url +:+ "/api/users"]> (
    <["positions" := base_url +:+ "/api/positions"]> (
    <["reports_trips" := base_url +:+ "/api/reports/trips"]> (
    <["reports_route" := base_url +:+ "/api/reports/route"]> (
    <["reports_events" := base_url +:+ "/api/reports/events"]> (
    <["notifications" := base_url +:+ "/api/notifications"]> (
    <["geofences" := base_url +:+ "/api/geofences"]> (
    <["session" := base_url +:+ "/api/session"]> (
    <["devices" := base_url +:+ "/api/devices"]> ∅))))))))))
|}.

(** The property [token]. *)
Definition token (self : TraccarAPI) : pyval := _token self.

(** ** Transports for the examples *)

(** A server that answers every request with the same status and body. *)
Definition answer (code : Z) (body : option pyval) (r : request) (w : ())
  : response * () :=
  ({| status_code := code; text := "reply"; json_body := body |}, w).

(** A device record as the server lists it, with no [model]. *)
Definition example_device : dict :=
  dict_lit [
    (KStr "id", PInt 7);
    (KStr "name", PStr "old");
    (KStr "uniqueId", PStr "u-7");
    (KStr "phone", PStr "555")].

(** A server that lists [example_device] on GET and accepts every write. *)
Definition example_server (r : request) (w : ()) : response * () :=
  match method r with
  | GET => ({| status_code := 200; text := "[...]";
               json_body := Some (PList [PDict example_device]) |}, w)
  | _ => ({| status_code := 200; text := "{...}"; json_body := Some (PDict ∅) |}, w)
  end.

(** [str] on the strings and integers of the examples. *)
Definition example_str (v : pyval) : string :=
  match v with
  | PStr s => s
  | PInt z => pretty z
  | _ => ""
  end.

(** A stand-in for [json.dumps] in the examples. *)
Definition example_dumps (v : pyval) : string :=
  match v with
  | PDict d => "{" +:+ pretty (size d) +:+ " items}"
  | _ => "null"
  end.

(** ** The monad of method bodies *)

Section Methods.

(** The transport: the state [W] of everything behind [self._session] and
    the response it gives to a request, and the two library functions the
    methods call on values: [str] (through [str.format]) and
    [json.dumps]. *)
Context {W : Type}.
Variable send : request → W → response * W.
Variable py_str : pyval → string.
Variable json_dumps : pyval → string.

Record state := {
  self : TraccarAPI;
  net : W;
  sent : list request;
}.

(** An exception leaves the state as it was when it was raised. *)
Definition M (A : Type) : Type := state → result A * state.

#[local] Instance M_ret : MRet M := λ A a st, (Ok a, st).
#[local] Instance M_bind : MBind M := λ A B f m st,
  match m st with
  | (Ok a, st') => f a st'
  | (Raise e, st') => (Raise e, st')
  end.

Definition raise {A} (e : exn) : M A := λ st, (Raise e, st).

Definition lift {A} (r : result A) : M A := λ st, (r, st).

(** [self._urls[name]] *)
Definition urls_getitem (name : string) : M string := λ st,
  match _urls (self st) !! name with
  | Some u => (Ok u, st)
  | None => (Raise (KeyError (PStr name)), st)
  end.

(** [self._token = t] *)
Definition set_token (t : pyval) : M () := λ st,
  (Ok (), {| self := {| _token := t; _urls := _urls (self st) |};
             net := net st; sent := sent st |}).

(** One round trip of [self._session]. *)
Definition session_request (r : request) : M response := λ st,
  let (resp, w) := send r (net st) in
  (Ok resp, {| self := self st; net := w; sent := sent st ++ [r] |}).

Definition session_get (url : string) (params headers : option dict) : M response :=
  session_request {| method := GET; url := url; params := params;
                     data := None; json := None; headers := headers |}.

Definition session_post (url : string) (data : option payload) (json : option pyval)
  : M response :=
  session_request {| method := POST; url := url; params := None;
                     data := data; json := json; headers := None |}.

Definition session_put (url : string) (data : option payload) (headers : option dict)
  : M response :=
  session_request {| method := PUT; url := url; params := None;
                     data := data; json := None; headers := headers |}.

Definition session_delete (url : string) : M response :=
  session_request {| method := DELETE; url := url; params := None;
                     data := None; json := None; headers := None |}.

(** ['{}/{}'.format(u, v)] for a string [u] *)
Definition format_slash (u : string) (v : pyval) : string :=
  u +:+ "/" +:+ py_str v.

(** ** /api/session *)

Definition login_with_credentials (username password : pyval) : M pyval :=
  path ← urls_getitem "session";
  let data := dict_lit [(KStr "email", username); (KStr "password", password)] in
  req ← session_post path (Some (Form data)) None;
  if status_code req =? 200 then
    lift (response_json req)
  else if status_code req =? 401 then
    raise ForbiddenAccessException
  else
    raise (TraccarApiException (text req)).

Definition login_with_token (token : pyval) : M pyval :=
  path ← urls_getitem "session";
  let data := dict_lit [(KStr "token", token)] in
  req ← session_get path (Some data) None;
  if status_code req =? 200 then
    _ ← set_token token;
    lift (response_json req)
  else if status_code req =? 404 then
    raise InvalidTokenException
  else
    raise (TraccarApiException (text req)).

(** ** /api/devices *)

Definition get_all_devices : M pyval :=
  path ← urls_getitem "devices";
  let data := dict_lit [(KStr "all", PBool true)] in
  req ← session_get path (Some data) None;
  if status_code req =? 200 then
    lift (response_json req)
  else if status_code req =? 400 then
    raise UserPermissionException
  else
    raise (TraccarApiException (text req)).

(** The display [{query: params}] raises [TypeError] on an unhashable
    [query]. *)
Definition get_devices (query params : option pyval) : M pyval :=
  let query := default PNone query in
  let params := default PNone params in
  path ← urls_getitem "devices";
  req ← (if negb (truthy query) then
           session_get path None None
         else
           match to_key query with
           | Some k =>
               let data := dict_lit [(k, params)] in
               session_get path (Some data) None
           | None => raise TypeError
           end);
  if status_code req =? 200 then
    lift (response_json req)
  else if status_code req =? 400 then
    raise (ObjectNotFoundException params "Device")
  else
    raise (TraccarApiException (text req)).

Definition create_device (name unique_id : pyval)
    (group_id phone model contact category : option pyval) : M pyval :=
  let group_id := default (PInt 0) group_id in
  let phone := default (PStr "") phone in
  let model := default (PStr "") model in
  let contact := default (PStr "") contact in
  let category := default PNone category in
  path ← urls_getitem "devices";
  let data := dict_lit [
    (KStr "id", PInt (-1));
    (KStr "name", name);
    (KStr "uniqueId", unique_id);
    (KStr "phone", phone);
    (KStr "model", model);
    (KStr "contact", contact);
    (KStr "category", category);
    (KStr "groupId", group_id)] in
  req ← session_post path None (Some (PDict data));
  if status_code req =? 200 then
    lift (response_json req)
  else if status_code req =? 400 then
    raise (BadRequestException (text req))
  else
    raise (TraccarApiException (text req)).

(** [value if update.get(key) is None else update[key]] *)
Definition overlay (update : dict) (key : pykey) (value : pyval) : result pyval :=
  if is_None (dict_get update key) then Ok value else dict_getitem update key.

Definition update_device (device_id : pyval)
    (name unique_id group_id phone model contact category : option pyval) : M pyval :=
  let name := default PNone name in
  let unique_id := default PNone unique_id in
  let group_id := default PNone group_id in
  let phone := default PNone phone in
  let model := default PNone model in
  let contact := default PNone contact in
  let category := default PNone category in
  req ← get_devices (Some (PStr "id")) (Some device_id);
  device_info ← lift (getitem0 req);
  let update := dict_lit [
    (KStr "name", name);
    (KStr "uniqueId", unique_id);
    (KStr "phone", phone);
    (KStr "model", model);
    (KStr "contact", contact);
    (KStr "category", category);
    (KStr "groupId", group_id)] in
  items ← lift (py_items device_info);
  data ← lift (dict_comp (overlay update) items);
  let headers := dict_lit [(KStr "Content-Type", PStr "application/json")] in
  devices ← urls_getitem "devices";
  req ← session_put (format_slash devices device_id)
          (Some (Text (json_dumps (PDict data)))) (Some headers);
  if status_code req =? 200 then
    lift (response_json req)
  else if status_code req =? 400 then
    raise (BadRequestException (text req))
  else
    raise (TraccarApiException (text req)).

Definition delete_device (device_id : pyval) : M pyval :=
  devices ← urls_getitem "devices";
  req ← session_delete (format_slash devices device_id);
  if negb (status_code req =? 204) then
    raise (TraccarApiException (text req))
  else
    mret PNone.

(** ** /api/geofences *)

Definition get_all_geofences : M pyval :=
  path ← urls_getitem "geofences";
  let data := dict_lit [(KStr "all", PBool true)] in
  req ← session_get path (Some data) None;
  if status_code req =? 200 then
    lift (response_json req)
  else if status_code req =? 400 then
    raise UserPermissionException
  else
    raise (TraccarApiException (text req)).

Definition get_geofences (query params : option pyval) : M pyval :=
  let query := default PNone query in
  let params := default PNone params in
  path ← urls_getitem "geofences";
  req ← (if negb (truthy query) then
           session_get path None None
         else
           match to_key query with
           | Some k =>
               let data := dict_lit [(k, params)] in
               session_get path (Some data) None
           | None => raise TypeError
           end);
  if status_code req =? 200 then
    lift (response_json req)
  else if status_code req =? 400 then
    raise (ObjectNotFoundException params "Geofence")
  else
    raise (TraccarApiException (text req)).

(** [calendarId] and [attributes] are accepted and not used. *)
Definition create_geofence (name area : pyval)
    (description calendarId attributes : option pyval) : M pyval :=
  let description := default (PStr "") description in
  let calendarId := default PNone calendarId in
  let attributes := default PNone attributes in
  path ← urls_getitem "geofences";
  let data := dict_lit [
    (KStr "id", PInt (-1));
    (KStr "name", name);
    (KStr "description", description);
    (KStr "area", PStr (py_str area))] in
  req ← session_post path None (Some (PDict data));
  if status_code req =? 200 then
    lift (response_json req)
  else if status_code req =? 400 then
    raise (BadRequestException (text req))
  else
    raise (TraccarApiException (text req)).

Definition update_geofence (geofence_id : pyval)
    (name area description calendarId attributes : option pyval) : M pyval :=
  let name := default PNone name in
  let area := default PNone area in
  let description := default PNone description in
  let calendarId := default PNone calendarId in
  let attributes := default PNone attributes in
  req ← get_geofences (Some (PStr "id")) (Some geofence_id);
  geofence_info ← lift (getitem0 req);
  let update := dict_lit [
    (KStr "name", name);
    (KStr "area", area);
    (KStr "description", description);
    (KStr "calendarId", calendarId);
    (KStr "attributes", attributes)] in
  items ← lift (py_items geofence_info);
  data ← lift (dict_comp (overlay update) items);
  let headers := dict_lit [(KStr "Content-Type", PStr "application/json")] in
  geofences ← urls_getitem "geofences";
  req ← session_put (format_slash geofences geofence_id)
          (Some (Text (json_dumps (PDict data)))) (Some headers);
  if status_code req =? 200 then
    lift (response_json req)
  else if status_code req =? 400 then
    raise (BadRequestException (text req))
  else
    raise (TraccarApiException (text req)).

Definition delete_geofence (geofence_id : pyval) : M pyval :=
  geofences ← urls_getitem "geofences";
  req ← session_delete (format_slash geofences geofence_id);
  if negb (status_code req =? 204) then
    raise (TraccarApiException (text req))
  else
    mret PNone.

(** ** /api/notifications *)

Definition get_all_notifications : M pyval :=
  path ← urls_getitem "notifications";
  let data := dict_lit [(KStr "all", PBool true)] in
  req ← session_get path (Some data) None;
  if status_code req =? 200 then
    lift (response_json req)
  else if status_code req =? 400 then
    raise UserPermissionException
  else
    raise (TraccarApiException (text req)).

(** ** /api/reports/events *)

(** [deviceid] is accepted and not used. *)
Definition get_events (startTime endTime : pyval)
    (event_type deviceid groupId : option pyval) : M pyval :=
  let event_type := default PNone event_type in
  let deviceid := default PNone deviceid in
  let groupId := default PNone groupId in
  path ← urls_getitem "reports_events";
  let data := dict_lit [
    (KStr "from", startTime);
    (KStr "to", endTime);
    (KStr "groupId", groupId);
    (KStr "type", event_type)] in
  let data := if negb (truthy event_type)
              then <[KStr "type" := PStr "%"]> data else data in
  let data := if negb (truthy groupId)
              then <[KStr "groupId" := PStr "1"]> data else data in
  req ← session_get path (Some data) None;
  if status_code req =? 200 then
    lift (response_json req)
  else if status_code req =? 400 then
    raise UserPermissionException
  else
    raise (TraccarApiException (text req)).

(** ** /api/positions *)

Definition get_positions (deviceId startTime endTime position_id : option pyval)
  : M pyval :=
  let deviceId := default PNone deviceId in
  let startTime := default PNone startTime in
  let endTime := default PNone endTime in
  let position_id := default PNone position_id in
  path ← urls_getitem "positions";
  let data := dict_lit [
    (KStr "deviceId", deviceId);
    (KStr "from", startTime);
    (KStr "to", endTime);
    (KStr "id", position_id)] in
  req ← session_get path (Some data) None;
  if status_code req =? 200 then
    lift (response_json req)
  else if status_code req =? 400 then
    raise UserPermissionException
  else
    raise (TraccarApiException (text req)).

(** ** /api/reports/trips *)

Definition get_trips (startTime endTime : pyval) (deviceid groupId : option pyval)
  : M pyval :=
  let deviceid := default PNone deviceid in
  let groupId := default PNone groupId in
  path ← urls_getitem "reports_trips";
  let data := dict_lit [
    (KStr "from", startTime);
    (KStr "to", endTime);
    (KStr "groupId", groupId)] in
  let data := if negb (truthy groupId)
              then <[KStr "groupId" := PStr "1"]> data else data in
  let headers := dict_lit [
    (KStr "Accept", PStr "application/json");
    (KStr "Content-Type", PStr "application/json")] in
  req ← session_get path (Some data) (Some headers);
  if status_code req =? 200 then
    lift (response_json req)
  else if status_code req =? 400 then
    raise UserPermissionException
  else
    raise (TraccarApiException (text req)).

(** ** /api/users *)

Definition get_all_users : M pyval :=
  path ← urls_getitem "users";
  let data := dict_lit [(KStr "all", PBool true)] in
  req ← session_get path (Some data) None;
  if status_code req =? 200 then
    lift (response_json req)
  else if status_code req =? 400 then
    raise UserPermissionException
  else
    raise (TraccarApiException (text req)).

Definition create_user (name email : pyval) (administrator token : option pyval)
  : M pyval :=
  let administrator := default (PBool false) administrator in
  let token := default PNone token in
  path ← urls_getitem "users";
  let data := dict_lit [
    (KStr "id", PInt (-1));
    (KStr "name", name);
    (KStr "email", email);
    (KStr "administrator", administrator);
    (KStr "token", token);
    (KStr "attributes", PDict (dict_lit [(KStr "speedUnit", PStr "kmh")]))] in
  req ← session_post path None (Some (PDict data));
  if status_code req =? 200 then
    lift (response_json req)
  else if status_code req =? 400 then
    raise (BadRequestException (text req))
  else
    raise (TraccarApiException (text req)).

(** ** /api/permissions *)

(** The local [data] is bound in two of the three branches; reading it
    unbound raises [UnboundLocalError] before the session is called. *)
Definition set_permissions (userId : pyval) (deviceId groupId : option pyval)
  : M pyval :=
  let deviceId := default (PInt 0) deviceId in
  let groupId := default (PInt 0) groupId in
  path ← urls_getitem "permissions";
  let data : option dict :=
    if ne_zero deviceId then
      Some (dict_lit [(KStr "userId", userId); (KStr "deviceId", deviceId)])
    else if ne_zero groupId then
      Some (dict_lit [(KStr "userId", userId); (KStr "groupId", groupId)])
    else None in
  data ← from_option mret (raise (UnboundLocalError "data")) data;
  req ← session_post path None (Some (PDict data));
  if status_code req =? 204 then
    mret (PDict data)
  else if status_code req =? 400 then
    raise (BadRequestException (text req))
  else
    raise (TraccarApiException (text req)).

(** ** /api/groups *)

Definition get_groups (userId : option pyval) : M pyval :=
  let userId := default PNone userId in
  path ← urls_getitem "groups";
  let data := dict_lit [(KStr "userId", userId)] in
  req ← session_get path (Some data) None;
  if status_code req =? 200 then
    lift (response_json req)
  else if status_code req =? 400 then
    raise UserPermissionException
  else
    raise (TraccarApiException (text req)).

(** ** /api/reports/route *)

Definition get_route (deviceid startTime endTime : pyval) : M pyval :=
  path ← urls_getitem "reports_route";
  let data := dict_lit [
    (KStr "deviceId", deviceid);
    (KStr "from", startTime);
    (KStr "to", endTime)] in
  let headers := dict_lit [
    (KStr "Accept", PStr "application/json");
    (KStr "Content-Type", PStr "application/json")] in
  req ← session_get path (Some data) (Some headers);
  if status_code req =? 200 then
    lift (response_json req)
  else if status_code req =? 400 then
    raise UserPermissionException
  else
    raise (TraccarApiException (text req)).

(** ** Method calls *)

(** One call of a public method with its arguments; an optional argument
    is [None] when the caller leaves it out. *)
Inductive call :=
| Login_with_credentials (username password : pyval)
| Login_with_token (token : pyval)
| Get_all_devices
| Get_devices (query params : option pyval)
| Create_device (name unique_id : pyval)
    (group_id phone model contact category : option pyval)
| Update_device (device_id : pyval)
    (name unique_id group_id phone model contact category : option pyval)
| Delete_device (device_id : pyval)
| Get_all_geofences
| Get_geofences (query params : option pyval)
| Create_geofence (name area : pyval) (description calendarId attributes : option pyval)
| Update_geofence (geofence_id : pyval)
    (name area description calendarId attributes : option pyval)
| Delete_geofence (geofence_id : pyval)
| Get_all_notifications
| Get_events (startTime endTime : pyval) (event_type deviceid groupId : option pyval)
| Get_positions (deviceId startTime endTime position_id : option pyval)
| Get_trips (startTime endTime : pyval) (deviceid groupId : option pyval)
| Get_all_users
| Create_user (name email : pyval) (administrator token : option pyval)
| Set_permissions (userId : pyval) (deviceId groupId : option pyval)
| Get_groups (userId : option pyval)
| Get_route (deviceid startTime endTime : pyval).

Definition run (c : call) : M pyval :=
  match c with
  | Login_with_credentials u p => login_with_credentials u p
  | Login_with_token t => login_with_token t
  | Get_all_devices => get_all_devices
  | Get_devices q p => get_devices q p
  | Create_device n u g p m c k => create_device n u g p m c k
  | Update_device i n u g p m c k => update_device i n u g p m c k
  | Delete_device i => delete_device i
  | Get_all_geofences => get_all_geofences
  | Get_geofences q p => get_geofences q p
  | Create_geofence n a d c t => create_geofence n a d c t
  | Update_geofence i n a d c t => update_geofence i n a d c t
  | Delete_geofence i => delete_geofence i
  | Get_all_notifications => get_all_notifications
  | Get_events s e t d g => get_events s e t d g
  | Get_positions d s e i => get_positions d s e i
  | Get_trips s e d g => get_trips s e d g
  | Get_all_users => get_all_users
  | Create_user n e a t => create_user n e a t
  | Set_permissions u d g => set_permissions u d g
  | Get_groups u => get_groups u
  | Get_route d s e => get_route d s e
  end.

(** A session: the calls made one after the other on one client; a raised
    exception is caught by the caller and the client is used again. *)
Definition run_all (cs : list call) (st : state) : state :=
  foldl (λ st c, (run c st).2) st cs.

(** A client just built on a transport in state [w]. *)
Definition new_client (base_url : string) (w : W) : state :=
  {| self := __init__ base_url; net := w; sent := [] |}.

(** A client built on [base_url] at a later point of its life. *)
Definition client_at (base_url : string) (tok : pyval) (w : W) (log : list request)
  : state :=
  {| self := {| _token := tok; _urls := _urls (__init__ base_url) |};
     net := w; sent := log |}.

(** ** Vocabulary of the statements *)

(** [m] does not assign to a field of [self]. *)
Definition keeps_self {A} (m : M A) : Prop :=
  ∀ st, self (m st).2 = self st.

(** The GET of [login_with_token]. *)
Definition token_request (path : string) (token : pyval) : request :=
  {| method := GET; url := path;
     params := Some (dict_lit [(KStr "token", token)]);
     data := None; json := None; headers := None |}.

(** The record an update submits, as a function of the caller's [update]
    dictionary and the record [info] fetched from the server: the items of
    [info], each value replaced by the caller's when that one is not
    [None]. *)
Definition merged (update info : dict) : dict :=
  map_imap (λ key value,
    Some (if is_None (dict_get update key) then value else dict_get update key)) info.

(** The [update] dictionaries of [update_device] and [update_geofence]. *)
Definition device_update
    (name unique_id group_id phone model contact category : option pyval) : dict :=
  dict_lit [
    (KStr "name", default PNone name);
    (KStr "uniqueId", default PNone unique_id);
    (KStr "phone", default PNone phone);
    (KStr "model", default PNone model);
    (KStr "contact", default PNone contact);
    (KStr "category", default PNone category);
    (KStr "groupId", default PNone group_id)].

Definition geofence_update
    (name area description calendarId attributes : option pyval) : dict :=
  dict_lit [
    (KStr "name", default PNone name);
    (KStr "area", default PNone area);
    (KStr "description", default PNone description);
    (KStr "calendarId", default PNone calendarId);
    (KStr "attributes", default PNone attributes)].

(** The requests of the methods the statements speak about. *)
Definition get_request (url : string) (params headers : option dict) : request :=
  {| method := GET; url := url; params := params;
     data := None; json := None; headers := headers |}.

Definition post_json (url : string) (body : dict) : request :=
  {| method := POST; url := url; params := None;
     data := None; json := Some (PDict body); headers := None |}.

Definition post_form (url : string) (form : dict) : request :=
  {| method := POST; url := url; params := None;
     data := Some (Form form); json := None; headers := None |}.

Definition put_record (url : string) (record : dict) : request :=
  {| method := PUT; url := url; params := None;
     data := Some (Text (json_dumps (PDict record))); json := None;
     headers := Some (dict_lit [(KStr "Content-Type", PStr "application/json")]) |}.

(** The fetch an update starts with: [get_devices(query='id', params=id)]. *)
Definition fetch_request (url : string) (id : pyval) : request :=
  get_request url (Some (dict_lit [(KStr "id", id)])) None.

(** The three-way dispatch on the status of the response to a write. *)
Definition write_outcome (resp : response) : result pyval :=
  if status_code resp =? 200 then response_json resp
  else if status_code resp =? 400 then Raise (BadRequestException (text resp))
  else Raise (TraccarApiException (text resp)).

(** The dispatch of a read or a write on the status of the response: the
    parsed body on 200, the exception [on400] on 400, and
    [TraccarApiException] with the response body on any other status. *)
Definition dispatches (out : result pyval) (resp : response) (on400 : exn) : Prop :=
  (status_code resp = 200 → out = response_json resp) ∧
  (status_code resp = 400 → out = Raise on400) ∧
  (status_code resp ≠ 200 → status_code resp ≠ 400 →
     out = Raise (TraccarApiException (text resp))).

Definition delete_request (url : string) : request :=
  {| method := DELETE; url := url; params := None;
     data := None; json := None; headers := None |}.

(** The query [{'all': True}] of the list-all methods. *)
Definition all_query : dict := dict_lit [(KStr "all", PBool true)].

(** The headers of [get_trips] and [get_route]. *)
Definition json_headers : dict :=
  dict_lit [
    (KStr "Accept", PStr "application/json");
    (KStr "Content-Type", PStr "application/json")].

(** [u] is a URL of the API of the server at [base_url]. *)
Definition api_url (base_url u : string) : Prop :=
  ∃ suffix, u = base_url +:+ "/api/" +:+ suffix.

(** The two update methods are the only ones with a second round trip. *)
Definition is_update (c : call) : bool :=
  match c with
  | Update_device _ _ _ _ _ _ _ _ | Update_geofence _ _ _ _ _ _ => true
  | _ => false
  end.

(** Two states of a client that differ at most in the cached token. *)
Definition same_but_token (st1 st2 : state) : Prop :=
  _urls (self st1) = _urls (self st2) ∧ net st1 = net st2 ∧ sent st1 = sent st2.

(** [m] never reads [self._token]: from states that differ in the token
    only it gives the same result and sends the same requests. *)
Definition token_blind {A} (m : M A) : Prop :=
  ∀ st1 st2, same_but_token st1 st2 →
    (m st1).1 = (m st2).1 ∧ same_but_token (m st1).2 (m st2).2.

(** ** Running a method on a client *)

Lemma urls_getitem_client base_url tok w log name u :
  _urls (__init__ base_url) !! name = Some u →
  urls_getitem name (client_at base_url tok w log)
  = (Ok u, client_at base_url tok w log).
Proof.
  intros H. unfold urls_getitem.
  change (_urls (self (client_at base_url tok w log))) with (_urls (__init__ base_url)).
  by rewrite H.
Qed.

Lemma session_request_client base_url tok w log r :
  session_request r (client_at base_url tok w log)
  = (Ok (send r w).1, client_at base_url tok (send r w).2 (log ++ [r])%list).
Proof. unfold session_request. simpl. by destruct (send r w). Qed.

Lemma set_token_client base_url tok w log t :
  set_token t (client_at base_url tok w log) = (Ok (), client_at base_url t w log).
Proof. reflexivity. Qed.

Lemma bind_Ok {A B} (m : M A) (f : A → M B) st a st' :
  m st = (Ok a, st') → (m ≫= f) st = f a st'.
Proof. intros H. unfold mbind, M_bind. by rewrite H. Qed.

Lemma bind_Raise {A B} (m : M A) (f : A → M B) st e st' :
  m st = (Raise e, st') → (m ≫= f) st = (Raise e, st').
Proof. intros H. unfold mbind, M_bind. by rewrite H. Qed.

Ltac mstep :=
  erewrite bind_Ok
    by (first [ by apply urls_getitem_client
              | apply session_request_client
              | apply set_token_client
              | reflexivity ]);
  cbv beta zeta.

Ltac status_cases resp :=
  repeat match goal with
  | |- context [status_code resp =? ?n] =>
      destruct (Z.eqb_spec (status_code resp) n)
  end.

(** ** What a method leaves alone *)

Lemma keeps_ret {A} (a : A) : keeps_self (mret a).
Proof. by intros st. Qed.

Lemma keeps_raise {A} e : keeps_self (raise (A:=A) e).
Proof. by intros st. Qed.

Lemma keeps_lift {A} (r : result A) : keeps_self (lift r).
Proof. by intros st. Qed.

Lemma keeps_urls_getitem name : keeps_self (urls_getitem name).
Proof. intros st. unfold urls_getitem. by destruct (_ !! _). Qed.

Lemma keeps_session_request r : keeps_self (session_request r).
Proof. intros st. unfold session_request. by destruct (send r (net st)). Qed.

Lemma keeps_bind {A B} (m : M A) (f : A → M B) :
  keeps_self m → (∀ a, keeps_self (f a)) → keeps_self (m ≫= f).
Proof.
  intros Hm Hf st. unfold mbind, M_bind.
  specialize (Hm st). destruct (m st) as [[a|e] st']; simpl in *.
  - by rewrite Hf.
  - done.
Qed.

Lemma keeps_from_option {A B} (f : A → M B) (m : M B) (o : option A) :
  (∀ a, keeps_self (f a)) → keeps_self m → keeps_self (from_option f m o).
Proof. intros Hf Hm. destruct o; simpl; auto. Qed.

Ltac keeps :=
  repeat first
    [ apply keeps_ret | apply keeps_raise | apply keeps_lift
    | apply keeps_urls_getitem | apply keeps_session_request
    | apply keeps_bind; [| intros ?]
    | apply keeps_from_option; [intros ? |]
    | match goal with
      | |- keeps_self (if ?b then _ else _) => destruct b
      | |- keeps_self (match ?o with Some _ => _ | None => _ end) => destruct o
      end ].

Lemma keeps_get_devices query params : keeps_self (get_devices query params).
Proof. unfold get_devices, session_get. keeps. Qed.

Lemma keeps_get_geofences query params : keeps_self (get_geofences query params).
Proof. unfold get_geofences, session_get. keeps. Qed.

(** Every method but [login_with_token] leaves the object as it is. *)
Lemma keeps_run c :
  (∀ t, c ≠ Login_with_token t) → keeps_self (run c).
Proof.
  intros Hc. destruct c; cbn [run]; try (by exfalso; eapply Hc);
    lazymatch goal with
    | |- keeps_self (?f _ _ _ _ _ _ _ _) => unfold f
    | |- keeps_self (?f _ _ _ _ _ _ _) => unfold f
    | |- keeps_self (?f _ _ _ _ _ _) => unfold f
    | |- keeps_self (?f _ _ _ _ _) => unfold f
    | |- keeps_self (?f _ _ _ _) => unfold f
    | |- keeps_self (?f _ _ _) => unfold f
    | |- keeps_self (?f _ _) => unfold f
    | |- keeps_self (?f _) => unfold f
    | |- keeps_self ?f => unfold f
    end;
    unfold session_get, session_post, session_put, session_delete; cbv zeta;
    repeat first [ apply keeps_get_devices | apply keeps_get_geofences
                 | progress keeps ].
Qed.

Lemma login_with_token_self token st :
  self (login_with_token token st).2 = self st ∨
  ∃ path,
    _urls (self st) !! "session" = Some path ∧
    status_code (send (token_request path token) (net st)).1 = 200 ∧
    self (login_with_token token st).2
    = {| _token := token; _urls := _urls (self st) |}.
Proof.
  unfold login_with_token, mbind, M_bind, urls_getitem.
  destruct (_urls (self st) !! "session") as [path|] eqn:Hp; [| by left].
  unfold session_get, session_request. cbv zeta.
  change {| method := GET; url := path |} with (token_request path token).
  destruct (send (token_request path token) (net st)) as [resp w'] eqn:Hs.
  destruct (Z.eqb_spec (status_code resp) 200) as [E|E].
  - right. exists path. simpl. by rewrite Hs.
  - left. by destruct (status_code resp =? 404).
Qed.

Lemma run_urls c st : _urls (self (run c st).2) = _urls (self st).
Proof.
  destruct c as [| t | | | | | | | | | | | | | | | | | | |];
    try (by rewrite keeps_run).
  cbn [run]. by destruct (login_with_token_self t st) as [->|(? & _ & _ & ->)].
Qed.

(** The statements below are about [client_at]: every state a new client
    gets to is one. *)
Lemma run_all_client_at base_url w cs :
  ∃ tok w' log, run_all cs (new_client base_url w) = client_at base_url tok w' log.
Proof.
  unfold run_all. induction cs as [|c cs IH] using rev_ind.
  - by exists (PStr ""), w, [].
  - destruct IH as (tok & w' & log & IH). rewrite foldl_snoc, IH.
    pose proof (run_urls c (client_at base_url tok w' log)) as Hu.
    destruct (run c (client_at base_url tok w' log)) as [r [[tok' urls'] w'' log']].
    simpl in Hu. subst urls'. by exists tok', w'', log'.
Qed.

(** C5: a new client caches the empty string; a call changes the cached
    token only if it is [login_with_token] answered with status 200, and
    then to the token supplied; [login_with_credentials] never changes it,
    whatever the response; so after any calls on a new client the cached
    token is the empty string or the argument of a [login_with_token]
    among them. *)
Theorem token_changes_only_on_token_login :
  (∀ base_url, _token (__init__ base_url) = PStr "") ∧
  (∀ c st,
     _token (self (run c st).2) = _token (self st) ∨
     ∃ t path,
       c = Login_with_token t ∧
       _urls (self st) !! "session" = Some path ∧
       status_code (send (token_request path t) (net st)).1 = 200 ∧
       _token (self (run c st).2) = t) ∧
  (∀ username password st,
     _token (self (login_with_credentials username password st).2)
     = _token (self st)) ∧
  (∀ base_url w cs,
     _token (self (run_all cs (new_client base_url w))) = PStr "" ∨
     ∃ t, Login_with_token t ∈ cs ∧
          _token (self (run_all cs (new_client base_url w))) = t).
Proof.
  assert (Hstep : ∀ c st,
     _token (self (run c st).2) = _token (self st) ∨
     ∃ t path,
       c = Login_with_token t ∧
       _urls (self st) !! "session" = Some path ∧
       status_code (send (token_request path t) (net st)).1 = 200 ∧
       _token (self (run c st).2) = t).
  { intros c st.
    destruct c as [| t | | | | | | | | | | | | | | | | | | |];
      try (left; by rewrite keeps_run).
    cbn [run]. destruct (login_with_token_self t st) as [->|(path & ? & ? & ->)].
    - by left.
    - right. by exists t, path. }
  split_and!; [done | exact Hstep | |].
  - intros u p st.
    change (login_with_credentials u p) with (run (Login_with_credentials u p)).
    by rewrite keeps_run.
  - intros base_url w cs. unfold run_all.
    induction cs as [|c cs IH] using rev_ind; [by left |].
    rewrite foldl_snoc.
    destruct (Hstep c (foldl (λ st c, (run c st).2) (new_client base_url w) cs))
      as [->|(t & path & -> & _ & _ & Ht)].
    + destruct IH as [IH|(t & Hin & IH)]; [by left |].
      right. exists t. split; [| done]. apply elem_of_app. by left.
    + right. exists t. split; [| done]. apply elem_of_app. right. by apply list_elem_of_singleton.
Qed.

(** C2: [login_with_token] sends one GET to the session endpoint with the
    token as query parameter.  On status 200 the cached token becomes the
    supplied one and the method returns what [req.json()] gives, the
    session JSON; on 404 it raises [InvalidTokenException], on any other
    status [TraccarApiException] with the response body, and in both cases
    the cached token is the one it was before the call. *)
Theorem login_with_token_spec base_url tok w log token :
  let req := {| method := GET; url := base_url +:+ "/api/session";
                params := Some (dict_lit [(KStr "token", token)]);
                data := None; json := None; headers := None |} in
  let resp := (send req w).1 in
  let out := login_with_token token (client_at base_url tok w log) in
  sent out.2 = (log ++ [req])%list ∧
  (status_code resp = 200 →
     _token (self out.2) = token ∧ out.1 = response_json resp) ∧
  (status_code resp = 404 →
     out.1 = Raise InvalidTokenException ∧ _token (self out.2) = tok) ∧
  (status_code resp ≠ 200 → status_code resp ≠ 404 →
     out.1 = Raise (TraccarApiException (text resp)) ∧ _token (self out.2) = tok).
Proof.
  intros req resp out. subst out. unfold login_with_token.
  do 2 mstep. change (send _ w) with (send req w). fold resp.
  status_cases resp; [mstep|..]; simpl; repeat split; intros; first [done | lia].
Qed.

(** ** The merge of an update *)

Lemma overlay_Ok update key value :
  overlay update key value
  = Ok (if is_None (dict_get update key) then value else dict_get update key).
Proof.
  unfold overlay, dict_get, dict_getitem.
  by destruct (update !! key) as [[]|].
Qed.

Lemma mapM_Ok {A B} (f : A → result B) (g : A → B) (l : list A) :
  (∀ x, f x = Ok (g x)) → mapM f l = Ok (g <$> l).
Proof.
  intros Hf. induction l as [|x l IH]; [done |].
  cbn [mapM]. by rewrite Hf, IH.
Qed.

(** The comprehension never raises: [update[key]] is only evaluated for a
    key that [update] holds. *)
Lemma lookup_merged update info k :
  merged update info !! k
  = (λ v, if is_None (dict_get update k) then v else dict_get update k) <$> info !! k.
Proof. unfold merged. rewrite map_lookup_imap. by destruct (info !! k). Qed.

Lemma dict_comp_overlay update info :
  dict_comp (overlay update) info = Ok (merged update info).
Proof.
  unfold dict_comp.
  pose (g := λ kv : pykey * pyval,
    (kv.1, if is_None (dict_get update kv.1) then kv.2 else dict_get update kv.1)).
  rewrite (mapM_Ok _ g); cycle 1.
  { intros [k v]. simpl. by rewrite overlay_Ok. }
  simpl. f_equal. apply map_eq. intros k. apply option_eq. intros v'.
  rewrite lookup_merged, <- elem_of_list_to_map; cycle 1.
  { rewrite <- list_fmap_compose.
    replace (fst ∘ g) with (fst : pykey * pyval → pykey) by done.
    apply NoDup_fst_map_to_list. }
  rewrite list_elem_of_fmap, fmap_Some. split.
  - intros ([k0 v] & Hg & Hin). apply elem_of_map_to_list in Hin.
    unfold g in Hg. simpl in Hg. injection Hg as -> ->. by exists v.
  - intros (v & Hk & ->). exists (k, v). split; [done |].
    by apply elem_of_map_to_list.
Qed.

Lemma dom_merged update info : dom (merged update info) = dom info.
Proof.
  apply set_eq. intros k. rewrite !elem_of_dom, lookup_merged.
  by rewrite fmap_is_Some.
Qed.

Lemma lift_Ok {A} (r : result A) a st : r = Ok a → lift r st = (Ok a, st).
Proof. by intros ->. Qed.

Lemma get_devices_by_id base_url tok w log id :
  let req := fetch_request (base_url +:+ "/api/devices") id in
  get_devices (Some (PStr "id")) (Some id) (client_at base_url tok w log)
  = ((if status_code (send req w).1 =? 200 then response_json (send req w).1
      else if status_code (send req w).1 =? 400
           then Raise (ObjectNotFoundException id "Device")
           else Raise (TraccarApiException (text (send req w).1))),
     client_at base_url tok (send req w).2 (log ++ [req])%list).
Proof.
  intros req. unfold get_devices. cbn [default truthy String.eqb negb to_key].
  do 2 mstep. change (send _ w) with (send req w).
  by status_cases (send req w).1.
Qed.

Lemma get_geofences_by_id base_url tok w log id :
  let req := fetch_request (base_url +:+ "/api/geofences") id in
  get_geofences (Some (PStr "id")) (Some id) (client_at base_url tok w log)
  = ((if status_code (send req w).1 =? 200 then response_json (send req w).1
      else if status_code (send req w).1 =? 400
           then Raise (ObjectNotFoundException id "Geofence")
           else Raise (TraccarApiException (text (send req w).1))),
     client_at base_url tok (send req w).2 (log ++ [req])%list).
Proof.
  intros req. unfold get_geofences. cbn [default truthy String.eqb negb to_key].
  do 2 mstep. change (send _ w) with (send req w).
  by status_cases (send req w).1.
Qed.

(** What [update_device] does when the fetch is answered with status 200
    and a list that starts with the record [info]. *)
Lemma update_device_run base_url tok w log device_id
    name unique_id group_id phone model contact category info rest :
  let fetch := fetch_request (base_url +:+ "/api/devices") device_id in
  let record :=
    merged (device_update name unique_id group_id phone model contact category) info in
  let put := put_record (format_slash (base_url +:+ "/api/devices") device_id) record in
  status_code (send fetch w).1 = 200 →
  json_body (send fetch w).1 = Some (PList (PDict info :: rest)) →
  update_device device_id name unique_id group_id phone model contact category
    (client_at base_url tok w log)
  = (write_outcome (send put (send fetch w).2).1,
     client_at base_url tok (send put (send fetch w).2).2 (log ++ [fetch; put])%list).
Proof.
  intros fetch record put H200 Hjson. unfold update_device. cbv zeta.
  erewrite bind_Ok; cycle 1.
  { rewrite get_devices_by_id. fold fetch. rewrite H200. cbn [Z.eqb Pos.eqb].
    unfold response_json. by rewrite Hjson. }
  cbv beta. simpl getitem0. mstep. simpl py_items. mstep.
  erewrite bind_Ok; [| apply lift_Ok, dict_comp_overlay]. cbv beta.
  do 2 mstep.
  change (merged _ info) with record.
  change (send _ (send fetch w).2) with (send put (send fetch w).2).
  rewrite <- app_assoc. unfold write_outcome.
  by status_cases (send put (send fetch w).2).1.
Qed.

Lemma update_geofence_run base_url tok w log geofence_id
    name area description calendarId attributes info rest :
  let fetch := fetch_request (base_url +:+ "/api/geofences") geofence_id in
  let record := merged (geofence_update name area description calendarId attributes) info in
  let put := put_record (format_slash (base_url +:+ "/api/geofences") geofence_id) record in
  status_code (send fetch w).1 = 200 →
  json_body (send fetch w).1 = Some (PList (PDict info :: rest)) →
  update_geofence geofence_id name area description calendarId attributes
    (client_at base_url tok w log)
  = (write_outcome (send put (send fetch w).2).1,
     client_at base_url tok (send put (send fetch w).2).2 (log ++ [fetch; put])%list).
Proof.
  intros fetch record put H200 Hjson. unfold update_geofence. cbv zeta.
  erewrite bind_Ok; cycle 1.
  { rewrite get_geofences_by_id. fold fetch. rewrite H200. cbn [Z.eqb Pos.eqb].
    unfold response_json. by rewrite Hjson. }
  cbv beta. simpl getitem0. mstep. simpl py_items. mstep.
  erewrite bind_Ok; [| apply lift_Ok, dict_comp_overlay]. cbv beta.
  do 2 mstep.
  change (merged _ info) with record.
  change (send _ (send fetch w).2) with (send put (send fetch w).2).
  rewrite <- app_assoc. unfold write_outcome.
  by status_cases (send put (send fetch w).2).1.
Qed.

(** ** The claims *)

(** C1: when the fetch finds the record [info], the record that
    [update_device] (and [update_geofence]) submits by PUT is [info] with
    the value of a field kept where the caller's value for that field is
    [None] and replaced by the caller's value where it is not.  So
    [update_device(id, name="X")] on a device record with a name and
    [phone="555"] submits [name == "X"] and [phone == "555"]. *)
Theorem update_overlays_supplied_fields :
  (∀ base_url tok w log device_id
     name unique_id group_id phone model contact category info rest,
     let fetch := fetch_request (base_url +:+ "/api/devices") device_id in
     let supplied :=
       dict_get (device_update name unique_id group_id phone model contact category) in
     let out := update_device device_id name unique_id group_id phone model contact
                  category (client_at base_url tok w log) in
     status_code (send fetch w).1 = 200 →
     json_body (send fetch w).1 = Some (PList (PDict info :: rest)) →
     ∃ record,
       sent out.2 = (log ++ [fetch;
         put_record (format_slash (base_url +:+ "/api/devices") device_id) record])%list ∧
       (∀ k v, info !! k = Some v → supplied k = PNone → record !! k = Some v) ∧
       (∀ k v, info !! k = Some v → supplied k ≠ PNone →
               record !! k = Some (supplied k))) ∧
  (∀ base_url tok w log geofence_id
     name area description calendarId attributes info rest,
     let fetch := fetch_request (base_url +:+ "/api/geofences") geofence_id in
     let supplied :=
       dict_get (geofence_update name area description calendarId attributes) in
     let out := update_geofence geofence_id name area description calendarId
                  attributes (client_at base_url tok w log) in
     status_code (send fetch w).1 = 200 →
     json_body (send fetch w).1 = Some (PList (PDict info :: rest)) →
     ∃ record,
       sent out.2 = (log ++ [fetch;
         put_record (format_slash (base_url +:+ "/api/geofences") geofence_id) record])%list ∧
       (∀ k v, info !! k = Some v → supplied k = PNone → record !! k = Some v) ∧
       (∀ k v, info !! k = Some v → supplied k ≠ PNone →
               record !! k = Some (supplied k))) ∧
  (∀ base_url tok w log device_id info rest current,
     let fetch := fetch_request (base_url +:+ "/api/devices") device_id in
     let out := update_device device_id (Some (PStr "X")) None None None None None
                  None (client_at base_url tok w log) in
     status_code (send fetch w).1 = 200 →
     json_body (send fetch w).1 = Some (PList (PDict info :: rest)) →
     info !! KStr "name" = Some current →
     info !! KStr "phone" = Some (PStr "555") →
     ∃ record,
       sent out.2 = (log ++ [fetch;
         put_record (format_slash (base_url +:+ "/api/devices") device_id) record])%list ∧
       record !! KStr "name" = Some (PStr "X") ∧
       record !! KStr "phone" = Some (PStr "555")).
Proof.
  split_and!.
  - intros * H200 Hjson. subst out. erewrite update_device_run by eassumption.
    eexists. split; [reflexivity |].
    split; intros k v Hk Hs; rewrite lookup_merged, Hk; simpl;
      fold supplied; destruct (supplied k); done.
  - intros * H200 Hjson. subst out. erewrite update_geofence_run by eassumption.
    eexists. split; [reflexivity |].
    split; intros k v Hk Hs; rewrite lookup_merged, Hk; simpl;
      fold supplied; destruct (supplied k); done.
  - intros * H200 Hjson Hname Hphone. subst out.
    erewrite update_device_run by eassumption.
    eexists. split; [reflexivity |].
    by rewrite !lookup_merged, Hname, Hphone.
Qed.

(** C9: the record an update submits has exactly the keys of the record
    fetched: a key the fetched record lacks is not in it, whatever the
    caller supplied for it, and the call goes on to the PUT without
    raising. *)
Theorem update_keeps_key_set :
  (∀ base_url tok w log device_id
     name unique_id group_id phone model contact category info rest,
     let fetch := fetch_request (base_url +:+ "/api/devices") device_id in
     let out := update_device device_id name unique_id group_id phone model contact
                  category (client_at base_url tok w log) in
     status_code (send fetch w).1 = 200 →
     json_body (send fetch w).1 = Some (PList (PDict info :: rest)) →
     ∃ record,
       let put :=
         put_record (format_slash (base_url +:+ "/api/devices") device_id) record in
       sent out.2 = (log ++ [fetch; put])%list ∧
       out.1 = write_outcome (send put (send fetch w).2).1 ∧
       dom record = dom info ∧
       (∀ k, info !! k = None → record !! k = None)) ∧
  (∀ base_url tok w log geofence_id
     name area description calendarId attributes info rest,
     let fetch := fetch_request (base_url +:+ "/api/geofences") geofence_id in
     let out := update_geofence geofence_id name area description calendarId
                  attributes (client_at base_url tok w log) in
     status_code (send fetch w).1 = 200 →
     json_body (send fetch w).1 = Some (PList (PDict info :: rest)) →
     ∃ record,
       let put :=
         put_record (format_slash (base_url +:+ "/api/geofences") geofence_id) record in
       sent out.2 = (log ++ [fetch; put])%list ∧
       out.1 = write_outcome (send put (send fetch w).2).1 ∧
       dom record = dom info ∧
       (∀ k, info !! k = None → record !! k = None)).
Proof.
  split.
  - intros * H200 Hjson. subst out. erewrite update_device_run by eassumption.
    eexists. cbv zeta. split_and!; [reflexivity | reflexivity | apply dom_merged |].
    intros k Hk. by rewrite lookup_merged, Hk.
  - intros * H200 Hjson. subst out. erewrite update_geofence_run by eassumption.
    eexists. cbv zeta. split_and!; [reflexivity | reflexivity | apply dom_merged |].
    intros k Hk. by rewrite lookup_merged, Hk.
Qed.

(** C6: [login_with_credentials] posts the form [email], [password] to
    the session endpoint; on status 200 it returns what [req.json()]
    gives, on 401 it raises [ForbiddenAccessException], on any other
    status [TraccarApiException] with the response body. *)
Theorem login_with_credentials_spec base_url tok w log username password :
  let req := post_form (base_url +:+ "/api/session")
               (dict_lit [(KStr "email", username); (KStr "password", password)]) in
  let resp := (send req w).1 in
  let out := login_with_credentials username password (client_at base_url tok w log) in
  sent out.2 = (log ++ [req])%list ∧
  (status_code resp = 200 → out.1 = response_json resp) ∧
  (status_code resp = 401 → out.1 = Raise ForbiddenAccessException) ∧
  (status_code resp ≠ 200 → status_code resp ≠ 401 →
     out.1 = Raise (TraccarApiException (text resp))).
Proof.
  intros req resp out. subst out. unfold login_with_credentials.
  do 2 mstep. change (send _ w) with (send req w). fold resp.
  status_cases resp; simpl; repeat split; intros; first [done | lia].
Qed.

(** C3: with both identifiers zero (left out, or passed as [0]) no branch
    of [set_permissions] binds [data]: the call raises [UnboundLocalError]
    for [data], returns nothing, and sends no request. *)
Theorem set_permissions_zero_unbound base_url tok w log userId :
  let st := client_at base_url tok w log in
  set_permissions userId None None st = (Raise (UnboundLocalError "data"), st) ∧
  set_permissions userId (Some (PInt 0)) (Some (PInt 0)) st
  = (Raise (UnboundLocalError "data"), st) ∧
  set_permissions userId (Some (PInt 0)) None st
  = (Raise (UnboundLocalError "data"), st) ∧
  set_permissions userId None (Some (PInt 0)) st
  = (Raise (UnboundLocalError "data"), st).
Proof.
  intros st. subst st. unfold set_permissions.
  split_and!; simpl default; cbn [ne_zero Z.eqb negb]; by mstep.
Qed.

(** C7: when exactly one of [deviceId], [groupId] differs from [0],
    [set_permissions] posts the JSON body [{userId, deviceId}] if it is
    [deviceId] and [{userId, groupId}] if it is [groupId]; on status 204 it
    returns that dictionary, on 400 it raises [BadRequestException]. *)
Theorem set_permissions_spec base_url tok w log userId deviceId groupId :
  let d := default (PInt 0) deviceId in
  let g := default (PInt 0) groupId in
  xorb (ne_zero d) (ne_zero g) = true →
  let body :=
    if ne_zero d
    then dict_lit [(KStr "userId", userId); (KStr "deviceId", d)]
    else dict_lit [(KStr "userId", userId); (KStr "groupId", g)] in
  let req := post_json (base_url +:+ "/api/permissions") body in
  let resp := (send req w).1 in
  let out := set_permissions userId deviceId groupId (client_at base_url tok w log) in
  sent out.2 = (log ++ [req])%list ∧
  (status_code resp = 204 → out.1 = Ok (PDict body)) ∧
  (status_code resp = 400 → out.1 = Raise (BadRequestException (text resp))).
Proof.
  intros d g Hx body req resp out. subst out. unfold set_permissions. cbv zeta.
  fold d. fold g. mstep.
  assert (Hdata : (if ne_zero d
      then Some (dict_lit [(KStr "userId", userId); (KStr "deviceId", d)])
      else if ne_zero g
           then Some (dict_lit [(KStr "userId", userId); (KStr "groupId", g)])
           else None) = Some body).
  { subst body. destruct (ne_zero d), (ne_zero g); done. }
  rewrite Hdata. cbn [from_option]. do 2 mstep.
  change (send _ w) with (send req w). fold resp.
  status_cases resp; simpl; repeat split; intros; first [done | lia].
Qed.

(** C8, as the code has it: the query parameters of [get_events] hold
    the caller's [event_type] when it is truthy and ["%"] when it is left
    out, [None] or another falsy value, and the caller's [groupId] when it
    is truthy and ["1"] when it is left out, [None] or another falsy
    value. *)
Theorem get_events_params base_url tok w log
    startTime endTime event_type deviceid groupId :
  let t := default PNone event_type in
  let g := default PNone groupId in
  let out := get_events startTime endTime event_type deviceid groupId
               (client_at base_url tok w log) in
  ∃ query,
    sent out.2
    = (log ++ [get_request (base_url +:+ "/api/reports/events") (Some query) None])%list ∧
    query !! KStr "from" = Some startTime ∧
    query !! KStr "to" = Some endTime ∧
    query !! KStr "type" = Some (if truthy t then t else PStr "%") ∧
    query !! KStr "groupId" = Some (if truthy g then g else PStr "1").
Proof.
  intros t g out. subst out. unfold get_events. cbv zeta. fold t. fold g.
  do 2 mstep. eexists. split.
  { match goal with |- context [status_code ?r =? 200] => by status_cases r end. }
  destruct (truthy t), (truthy g); done.
Qed.

(** C10: when [query] is left out, [None] or any other falsy value,
    [get_devices] (and [get_geofences]) sends the GET without query
    parameters, whatever [params] is, and on status 200 returns what
    [req.json()] gives for it: neither the request, nor the state after
    it, nor that result depends on [params]. *)
Theorem falsy_query_sends_no_params base_url tok w log query params :
  truthy (default PNone query) = false →
  (let req := get_request (base_url +:+ "/api/devices") None None in
   let out := get_devices query params (client_at base_url tok w log) in
   out.2 = client_at base_url tok (send req w).2 (log ++ [req])%list ∧
   (status_code (send req w).1 = 200 → out.1 = response_json (send req w).1)) ∧
  (let req := get_request (base_url +:+ "/api/geofences") None None in
   let out := get_geofences query params (client_at base_url tok w log) in
   out.2 = client_at base_url tok (send req w).2 (log ++ [req])%list ∧
   (status_code (send req w).1 = 200 → out.1 = response_json (send req w).1)).
Proof.
  intros Hq. split; intros req out; subst out.
  - unfold get_devices. cbv zeta. rewrite Hq. cbn [negb]. do 2 mstep.
    change (send _ w) with (send req w).
    status_cases (send req w).1; simpl; split; intros; first [done | lia].
  - unfold get_geofences. cbv zeta. rewrite Hq. cbn [negb]. do 2 mstep.
    change (send _ w) with (send req w).
    status_cases (send req w).1; simpl; split; intros; first [done | lia].
Qed.

(** The one place where [params] shows when [query] is falsy: the
    exception raised on status 400. *)
Remark falsy_query_status_400 base_url tok w log query params :
  truthy (default PNone query) = false →
  let req := get_request (base_url +:+ "/api/devices") None None in
  status_code (send req w).1 = 400 →
  (get_devices query params (client_at base_url tok w log)).1
  = Raise (ObjectNotFoundException (default PNone params) "Device").
Proof.
  intros Hq req H400. unfold get_devices. cbv zeta. rewrite Hq. cbn [negb].
  do 2 mstep. change (send _ w) with (send req w). by rewrite H400.
Qed.

(** ** The create operations *)

Lemma create_device_run base_url tok w log
    name unique_id group_id phone model contact category :
  let body := dict_lit [
    (KStr "id", PInt (-1));
    (KStr "name", name);
    (KStr "uniqueId", unique_id);
    (KStr "phone", default (PStr "") phone);
    (KStr "model", default (PStr "") model);
    (KStr "contact", default (PStr "") contact);
    (KStr "category", default PNone category);
    (KStr "groupId", default (PInt 0) group_id)] in
  let req := post_json (base_url +:+ "/api/devices") body in
  create_device name unique_id group_id phone model contact category
    (client_at base_url tok w log)
  = (write_outcome (send req w).1,
     client_at base_url tok (send req w).2 (log ++ [req])%list).
Proof.
  intros body req. unfold create_device. cbv zeta. do 2 mstep.
  change (send _ w) with (send req w). unfold write_outcome.
  by status_cases (send req w).1.
Qed.

Lemma create_user_run base_url tok w log name email administrator token :
  let body := dict_lit [
    (KStr "id", PInt (-1));
    (KStr "name", name);
    (KStr "email", email);
    (KStr "administrator", default (PBool false) administrator);
    (KStr "token", default PNone token);
    (KStr "attributes", PDict (dict_lit [(KStr "speedUnit", PStr "kmh")]))] in
  let req := post_json (base_url +:+ "/api/users") body in
  create_user name email administrator token (client_at base_url tok w log)
  = (write_outcome (send req w).1,
     client_at base_url tok (send req w).2 (log ++ [req])%list).
Proof.
  intros body req. unfold create_user. cbv zeta. do 2 mstep.
  change (send _ w) with (send req w). unfold write_outcome.
  by status_cases (send req w).1.
Qed.

(** The body of [create_geofence] has four keys, whatever [calendarId] and
    [attributes] are. *)
Lemma create_geofence_run base_url tok w log
    name area description calendarId attributes :
  let body := dict_lit [
    (KStr "id", PInt (-1));
    (KStr "name", name);
    (KStr "description", default (PStr "") description);
    (KStr "area", PStr (py_str area))] in
  let req := post_json (base_url +:+ "/api/geofences") body in
  create_geofence name area description calendarId attributes
    (client_at base_url tok w log)
  = (write_outcome (send req w).1,
     client_at base_url tok (send req w).2 (log ++ [req])%list).
Proof.
  intros body req. unfold create_geofence. cbv zeta. do 2 mstep.
  change (send _ w) with (send req w). unfold write_outcome.
  by status_cases (send req w).1.
Qed.

Lemma write_outcome_cases resp :
  (status_code resp = 200 → write_outcome resp = response_json resp) ∧
  (status_code resp = 400 →
     write_outcome resp = Raise (BadRequestException (text resp))) ∧
  (status_code resp ≠ 200 → status_code resp ≠ 400 →
     write_outcome resp = Raise (TraccarApiException (text resp))).
Proof.
  unfold write_outcome.
  status_cases resp; repeat split; intros; first [done | lia].
Qed.

(** The bodies of [create_device] and [create_user] hold [id = -1] and
    every parameter, an optional one at its default when left out. *)
Lemma create_device_body base_url tok w log
    name unique_id group_id phone model contact category :
  ∃ body,
    sent (create_device name unique_id group_id phone model contact category
            (client_at base_url tok w log)).2
    = (log ++ [post_json (base_url +:+ "/api/devices") body])%list ∧
    body !! KStr "id" = Some (PInt (-1)) ∧
    body !! KStr "name" = Some name ∧
    body !! KStr "uniqueId" = Some unique_id ∧
    body !! KStr "phone" = Some (default (PStr "") phone) ∧
    body !! KStr "model" = Some (default (PStr "") model) ∧
    body !! KStr "contact" = Some (default (PStr "") contact) ∧
    body !! KStr "category" = Some (default PNone category) ∧
    body !! KStr "groupId" = Some (default (PInt 0) group_id).
Proof. rewrite create_device_run. eexists. by split_and!. Qed.

Lemma create_user_body base_url tok w log name email administrator token :
  ∃ body,
    sent (create_user name email administrator token
            (client_at base_url tok w log)).2
    = (log ++ [post_json (base_url +:+ "/api/users") body])%list ∧
    body !! KStr "id" = Some (PInt (-1)) ∧
    body !! KStr "name" = Some name ∧
    body !! KStr "email" = Some email ∧
    body !! KStr "administrator" = Some (default (PBool false) administrator) ∧
    body !! KStr "token" = Some (default PNone token).
Proof. rewrite create_user_run. eexists. by split_and!. Qed.

Lemma create_geofence_body base_url tok w log
    name area description calendarId attributes :
  ∃ body,
    sent (create_geofence name area description calendarId attributes
            (client_at base_url tok w log)).2
    = (log ++ [post_json (base_url +:+ "/api/geofences") body])%list ∧
    body !! KStr "id" = Some (PInt (-1)) ∧
    body !! KStr "name" = Some name ∧
    body !! KStr "description" = Some (default (PStr "") description) ∧
    body !! KStr "area" = Some (PStr (py_str area)) ∧
    body !! KStr "calendarId" = None ∧
    body !! KStr "attributes" = None.
Proof. rewrite create_geofence_run. eexists. by split_and!. Qed.

(** ** Beyond the claims: the other methods and the edges *)

Ltac run_once req :=
  do 2 mstep;
  match goal with
  | |- context [send _ ?w] =>
      change (send _ w) with (send req w);
      unfold dispatches;
      status_cases (send req w).1; simpl; repeat split; intros; first [done | lia]
  end.

(** [delete_device] and [delete_geofence] send one DELETE to the URL of the
    resource followed by [/] and the identifier; they return [None] on
    status 204 and raise [TraccarApiException] with the response body on
    every other status, 200 included. *)
Theorem delete_spec base_url tok w log id :
  (let req := delete_request (format_slash (base_url +:+ "/api/devices") id) in
   let out := delete_device id (client_at base_url tok w log) in
   out.2 = client_at base_url tok (send req w).2 (log ++ [req])%list ∧
   (status_code (send req w).1 = 204 → out.1 = Ok PNone) ∧
   (status_code (send req w).1 ≠ 204 →
      out.1 = Raise (TraccarApiException (text (send req w).1)))) ∧
  (let req := delete_request (format_slash (base_url +:+ "/api/geofences") id) in
   let out := delete_geofence id (client_at base_url tok w log) in
   out.2 = client_at base_url tok (send req w).2 (log ++ [req])%list ∧
   (status_code (send req w).1 = 204 → out.1 = Ok PNone) ∧
   (status_code (send req w).1 ≠ 204 →
      out.1 = Raise (TraccarApiException (text (send req w).1)))).
Proof.
  split; intros req out; subst out.
  - unfold delete_device. run_once req.
  - unfold delete_geofence. run_once req.
Qed.

(** The four list-all methods send one GET with the query [{'all': True}]
    to their resource; they return the parsed body on status 200, raise
    [UserPermissionException] on 400 and [TraccarApiException] with the
    response body otherwise. *)
Theorem list_all_spec base_url tok w log :
  let st := client_at base_url tok w log in
  let after req := client_at base_url tok (send req w).2 (log ++ [req])%list in
  (let req := get_request (base_url +:+ "/api/devices") (Some all_query) None in
   (get_all_devices st).2 = after req ∧
   dispatches (get_all_devices st).1 (send req w).1 UserPermissionException) ∧
  (let req := get_request (base_url +:+ "/api/geofences") (Some all_query) None in
   (get_all_geofences st).2 = after req ∧
   dispatches (get_all_geofences st).1 (send req w).1 UserPermissionException) ∧
  (let req := get_request (base_url +:+ "/api/notifications") (Some all_query) None in
   (get_all_notifications st).2 = after req ∧
   dispatches (get_all_notifications st).1 (send req w).1 UserPermissionException) ∧
  (let req := get_request (base_url +:+ "/api/users") (Some all_query) None in
   (get_all_users st).2 = after req ∧
   dispatches (get_all_users st).1 (send req w).1 UserPermissionException).
Proof.
  intros st after. subst st after. split_and!; intros req.
  - unfold get_all_devices. run_once req.
  - unfold get_all_geofences. run_once req.
  - unfold get_all_notifications. run_once req.
  - unfold get_all_users. run_once req.
Qed.

(** A filtered lookup: with a truthy hashable [query], [get_devices] (and
    [get_geofences]) sends one GET with the single query parameter
    [query = params]; on status 400 it raises [ObjectNotFoundException]
    carrying [params] and the resource type name. *)
Theorem filtered_lookup_spec base_url tok w log query params k :
  let q := default PNone query in
  let p := default PNone params in
  truthy q = true →
  to_key q = Some k →
  (let req := get_request (base_url +:+ "/api/devices") (Some {[ k := p ]}) None in
   let out := get_devices query params (client_at base_url tok w log) in
   out.2 = client_at base_url tok (send req w).2 (log ++ [req])%list ∧
   dispatches out.1 (send req w).1 (ObjectNotFoundException p "Device")) ∧
  (let req := get_request (base_url +:+ "/api/geofences") (Some {[ k := p ]}) None in
   let out := get_geofences query params (client_at base_url tok w log) in
   out.2 = client_at base_url tok (send req w).2 (log ++ [req])%list ∧
   dispatches out.1 (send req w).1 (ObjectNotFoundException p "Geofence")).
Proof.
  intros q p Hq Hk. split; intros req out; subst out.
  - unfold get_devices. cbv zeta. fold q. rewrite Hq, Hk. cbn [negb].
    run_once req.
  - unfold get_geofences. cbv zeta. fold q. rewrite Hq, Hk. cbn [negb].
    run_once req.
Qed.

(** A truthy [query] that cannot be a dictionary key (a non-empty list or
    dictionary) makes [get_devices] and [get_geofences] raise [TypeError]
    before anything is sent. *)
Theorem unhashable_query_raises base_url tok w log query params :
  truthy (default PNone query) = true →
  to_key (default PNone query) = None →
  get_devices query params (client_at base_url tok w log)
  = (Raise TypeError, client_at base_url tok w log) ∧
  get_geofences query params (client_at base_url tok w log)
  = (Raise TypeError, client_at base_url tok w log).
Proof.
  intros Hq Hk. split.
  - unfold get_devices. cbv zeta. rewrite Hq, Hk. cbn [negb]. by mstep.
  - unfold get_geofences. cbv zeta. rewrite Hq, Hk. cbn [negb]. by mstep.
Qed.

(** When [deviceId] differs from [0], [set_permissions] does not look at
    [groupId]: the call is the one with [groupId] left out, it posts
    [{userId, deviceId}], and a status other than 204 and 400 (200
    included) raises [TraccarApiException] with the response body. *)
Theorem set_permissions_device_first base_url tok w log userId deviceId groupId :
  ne_zero deviceId = true →
  let st := client_at base_url tok w log in
  let req := post_json (base_url +:+ "/api/permissions")
               (dict_lit [(KStr "userId", userId); (KStr "deviceId", deviceId)]) in
  set_permissions userId (Some deviceId) groupId st
  = set_permissions userId (Some deviceId) None st ∧
  (set_permissions userId (Some deviceId) groupId st).2
  = client_at base_url tok (send req w).2 (log ++ [req])%list ∧
  (status_code (send req w).1 ≠ 204 → status_code (send req w).1 ≠ 400 →
     (set_permissions userId (Some deviceId) groupId st).1
     = Raise (TraccarApiException (text (send req w).1))).
Proof.
  intros Hd st req. subst st.
  assert (Heq : ∀ g, set_permissions userId (Some deviceId) g
                       (client_at base_url tok w log)
    = ((if status_code (send req w).1 =? 204
        then Ok (PDict (dict_lit [(KStr "userId", userId); (KStr "deviceId", deviceId)]))
        else if status_code (send req w).1 =? 400
             then Raise (BadRequestException (text (send req w).1))
             else Raise (TraccarApiException (text (send req w).1))),
       client_at base_url tok (send req w).2 (log ++ [req])%list)).
  { intros g. unfold set_permissions. cbv zeta.
    change (default (PInt 0) (Some deviceId)) with deviceId. rewrite Hd.
    cbn [from_option]. do 3 mstep. change (send _ w) with (send req w).
    by status_cases (send req w).1. }
  rewrite !Heq. split_and!; [done | done |].
  simpl. intros H204 H400. by status_cases (send req w).1.
Qed.

Lemma bind_eq {A B} (m : M A) (f : A → M B) st :
  (m ≫= f) st
  = match m st with
    | (Ok a, st') => f a st'
    | (Raise e, st') => (Raise e, st')
    end.
Proof. reflexivity. Qed.

(** When the fetch of an update is answered with a status other than 200,
    the update raises what the lookup raises ([ObjectNotFoundException] for
    the identifier on 400, [TraccarApiException] otherwise) and no PUT is
    sent: the fetch is the only request. *)
Theorem update_stops_when_fetch_fails :
  (∀ base_url tok w log device_id
     name unique_id group_id phone model contact category,
     let fetch := fetch_request (base_url +:+ "/api/devices") device_id in
     let out := update_device device_id name unique_id group_id phone model contact
                  category (client_at base_url tok w log) in
     status_code (send fetch w).1 ≠ 200 →
     out.2 = client_at base_url tok (send fetch w).2 (log ++ [fetch])%list ∧
     (status_code (send fetch w).1 = 400 →
        out.1 = Raise (ObjectNotFoundException device_id "Device")) ∧
     (status_code (send fetch w).1 ≠ 400 →
        out.1 = Raise (TraccarApiException (text (send fetch w).1)))) ∧
  (∀ base_url tok w log geofence_id name area description calendarId attributes,
     let fetch := fetch_request (base_url +:+ "/api/geofences") geofence_id in
     let out := update_geofence geofence_id name area description calendarId
                  attributes (client_at base_url tok w log) in
     status_code (send fetch w).1 ≠ 200 →
     out.2 = client_at base_url tok (send fetch w).2 (log ++ [fetch])%list ∧
     (status_code (send fetch w).1 = 400 →
        out.1 = Raise (ObjectNotFoundException geofence_id "Geofence")) ∧
     (status_code (send fetch w).1 ≠ 400 →
        out.1 = Raise (TraccarApiException (text (send fetch w).1)))).
Proof.
  split; intros * Hne; subst out.
  - unfold update_device. cbv zeta. rewrite bind_eq, get_devices_by_id.
    cbv zeta. fold fetch.
    status_cases (send fetch w).1; simpl; repeat split; intros; first [done | lia].
  - unfold update_geofence. cbv zeta. rewrite bind_eq, get_geofences_by_id.
    cbv zeta. fold fetch.
    status_cases (send fetch w).1; simpl; repeat split; intros; first [done | lia].
Qed.

(** When the fetch of an update is answered with status 200 but with no
    record to update, the update raises a built-in error and no PUT is sent:
    [IndexError] for the empty list (an identifier the server does not
    list), [AttributeError] when the first element is not an object, and
    [JSONDecodeError] when the body is not JSON. *)
Theorem update_without_record :
  (∀ base_url tok w log device_id
     name unique_id group_id phone model contact category,
     let fetch := fetch_request (base_url +:+ "/api/devices") device_id in
     let out := update_device device_id name unique_id group_id phone model contact
                  category (client_at base_url tok w log) in
     let after := client_at base_url tok (send fetch w).2 (log ++ [fetch])%list in
     status_code (send fetch w).1 = 200 →
     (json_body (send fetch w).1 = Some (PList []) → out = (Raise IndexError, after)) ∧
     (∀ first rest,
        json_body (send fetch w).1 = Some (PList (first :: rest)) →
        py_items first = Raise AttributeError →
        out = (Raise AttributeError, after)) ∧
     (json_body (send fetch w).1 = None → out = (Raise JSONDecodeError, after))) ∧
  (∀ base_url tok w log geofence_id name area description calendarId attributes,
     let fetch := fetch_request (base_url +:+ "/api/geofences") geofence_id in
     let out := update_geofence geofence_id name area description calendarId
                  attributes (client_at base_url tok w log) in
     let after := client_at base_url tok (send fetch w).2 (log ++ [fetch])%list in
     status_code (send fetch w).1 = 200 →
     (json_body (send fetch w).1 = Some (PList []) → out = (Raise IndexError, after)) ∧
     (∀ first rest,
        json_body (send fetch w).1 = Some (PList (first :: rest)) →
        py_items first = Raise AttributeError →
        out = (Raise AttributeError, after)) ∧
     (json_body (send fetch w).1 = None → out = (Raise JSONDecodeError, after))).
Proof.
  split; intros * H200; subst out after.
  - unfold update_device. cbv zeta. rewrite bind_eq, get_devices_by_id.
    cbv zeta. fold fetch. rewrite H200. cbn [Z.eqb Pos.eqb]. unfold response_json.
    split_and!.
    + by intros ->.
    + intros first rest -> Hitems. simpl getitem0. mstep.
      by rewrite bind_eq, Hitems.
    + by intros ->.
  - unfold update_geofence. cbv zeta. rewrite bind_eq, get_geofences_by_id.
    cbv zeta. fold fetch. rewrite H200. cbn [Z.eqb Pos.eqb]. unfold response_json.
    split_and!.
    + by intros ->.
    + intros first rest -> Hitems. simpl getitem0. mstep.
      by rewrite bind_eq, Hitems.
    + by intros ->.
Qed.

Lemma merged_no_fields update info :
  (∀ k, dict_get update k = PNone) → merged update info = info.
Proof.
  intros Hu. apply map_eq. intros k. rewrite lookup_merged, Hu.
  by destruct (info !! k).
Qed.

Lemma dict_get_all_None (items : list pykey) k :
  dict_get (dict_lit ((λ key, (key, PNone)) <$> items)) k = PNone.
Proof.
  unfold dict_get, dict_lit.
  assert (H : ∀ d : dict, default PNone (d !! k) = PNone →
    default PNone (foldl (λ d kv, <[kv.1 := kv.2]> d) d
                     ((λ key, (key, PNone)) <$> items) !! k) = PNone).
  { induction items as [|i items IH]; intros d Hd; [done |].
    simpl. apply IH. rewrite lookup_insert. by case_decide. }
  by apply H.
Qed.

(** An update called with the identifier alone submits the fetched record
    as it is. *)
Theorem update_without_fields_resubmits :
  (∀ base_url tok w log device_id info rest,
     let fetch := fetch_request (base_url +:+ "/api/devices") device_id in
     let out := update_device device_id None None None None None None None
                  (client_at base_url tok w log) in
     status_code (send fetch w).1 = 200 →
     json_body (send fetch w).1 = Some (PList (PDict info :: rest)) →
     sent out.2 = (log ++ [fetch;
       put_record (format_slash (base_url +:+ "/api/devices") device_id) info])%list) ∧
  (∀ base_url tok w log geofence_id info rest,
     let fetch := fetch_request (base_url +:+ "/api/geofences") geofence_id in
     let out := update_geofence geofence_id None None None None None
                  (client_at base_url tok w log) in
     status_code (send fetch w).1 = 200 →
     json_body (send fetch w).1 = Some (PList (PDict info :: rest)) →
     sent out.2 = (log ++ [fetch;
       put_record (format_slash (base_url +:+ "/api/geofences") geofence_id) info])%list).
Proof.
  split; intros * H200 Hjson; subst out.
  - erewrite update_device_run by eassumption. cbv zeta.
    rewrite merged_no_fields; [done |]. intros k.
    apply (dict_get_all_None
      [KStr "name"; KStr "uniqueId"; KStr "phone"; KStr "model"; KStr "contact";
       KStr "category"; KStr "groupId"]).
  - erewrite update_geofence_run by eassumption. cbv zeta.
    rewrite merged_no_fields; [done |]. intros k.
    apply (dict_get_all_None
      [KStr "name"; KStr "area"; KStr "description"; KStr "calendarId";
       KStr "attributes"]).
Qed.

(** The comprehension of the updates never raises and composes: overlaying
    [first] and then [second] keeps the keys of the record and gives each
    the value of [second] where it has one, else that of [first] where it
    has one, else the record's; overlaying the same dictionary twice is
    overlaying it once. *)
Theorem overlay_composes (first second info : dict) :
  (∃ record,
     dict_comp (overlay first) info ≫= dict_comp (overlay second) = Ok record ∧
     dom record = dom info ∧
     ∀ k v, info !! k = Some v →
       record !! k = Some (
         if is_None (dict_get second k)
         then (if is_None (dict_get first k) then v else dict_get first k)
         else dict_get second k)) ∧
  dict_comp (overlay first) info ≫= dict_comp (overlay first)
  = dict_comp (overlay first) info.
Proof.
  rewrite !dict_comp_overlay. split.
  - exists (merged second (merged first info)). split_and!.
    + simpl. apply dict_comp_overlay.
    + by rewrite !dom_merged.
    + intros k v Hk. by rewrite !lookup_merged, Hk.
  - change (Ok (merged first info) ≫= dict_comp (overlay first))
      with (dict_comp (overlay first) (merged first info)).
    rewrite dict_comp_overlay. f_equal. apply map_eq. intros k.
    rewrite !lookup_merged. destruct (info !! k) as [v|]; [| done].
    simpl. by destruct (dict_get first k).
Qed.

(** A call that raises leaves the object as it was, unless what it raises
    is the error of [req.json()]: that one can follow the assignment to
    [_token] in [login_with_token]. *)
Theorem raised_call_keeps_self c st e :
  (run c st).1 = Raise e →
  e ≠ JSONDecodeError →
  self (run c st).2 = self st.
Proof.
  intros Hr He.
  destruct c as [| t | | | | | | | | | | | | | | | | | | |];
    try (by rewrite keeps_run).
  revert Hr. cbn [run].
  unfold login_with_token, mbind, M_bind, urls_getitem.
  destruct (_urls (self st) !! "session") as [path|]; [| done].
  unfold session_get, session_request. cbv zeta.
  destruct (send _ (net st)) as [resp w'].
  destruct (status_code resp =? 200).
  - simpl. unfold response_json. destruct (json_body resp); [done |].
    simpl. intros [= <-]. done.
  - by destruct (status_code resp =? 404).
Qed.

(** [login_with_token] assigns [_token] before it reads the body: a
    response with status 200 whose body is not JSON makes the call raise,
    and the token is cached all the same. *)
Theorem token_cached_before_body_is_read base_url tok w log token :
  let req := token_request (base_url +:+ "/api/session") token in
  status_code (send req w).1 = 200 →
  json_body (send req w).1 = None →
  login_with_token token (client_at base_url tok w log)
  = (Raise JSONDecodeError,
     client_at base_url token (send req w).2 (log ++ [req])%list).
Proof.
  intros req H200 Hjson. unfold login_with_token. do 2 mstep.
  change (send _ w) with (send req w). rewrite H200. cbn [Z.eqb Pos.eqb].
  mstep. unfold response_json. by rewrite Hjson.
Qed.

(** [get_trips] sends one GET to the trips report with [from], [to] and
    [groupId] and the JSON headers: [groupId] is the caller's when truthy
    and ["1"] otherwise, and [deviceid] is never sent.  The parsed body is
    returned on 200, [UserPermissionException] raised on 400. *)
Theorem get_trips_spec base_url tok w log startTime endTime deviceid groupId :
  let g := default PNone groupId in
  let out := get_trips startTime endTime deviceid groupId
               (client_at base_url tok w log) in
  ∃ query,
    let req := get_request (base_url +:+ "/api/reports/trips")
                 (Some query) (Some json_headers) in
    out.2 = client_at base_url tok (send req w).2 (log ++ [req])%list ∧
    dispatches out.1 (send req w).1 UserPermissionException ∧
    query !! KStr "from" = Some startTime ∧
    query !! KStr "to" = Some endTime ∧
    query !! KStr "groupId" = Some (if truthy g then g else PStr "1") ∧
    dom query = {[KStr "from"; KStr "to"; KStr "groupId"]}.
Proof.
  intros g out. subst out. unfold get_trips. cbv zeta. fold g.
  do 2 mstep. destruct (truthy g); cbn [negb]; eexists; cbv zeta;
    unfold dispatches;
    match goal with
    | |- context [status_code (send ?r w).1 =? 200] => status_cases (send r w).1
    end; simpl;
    (split_and!;
       [reflexivity | intros; try unfold get_request, json_headers in *;
                      first [done | lia] ..]).
Qed.

(** [get_events] sends [from], [to], [groupId] and [type] and nothing else:
    its [deviceid] argument never reaches the server.  The parsed body is
    returned on 200, [UserPermissionException] raised on 400. *)
Theorem get_events_spec base_url tok w log
    startTime endTime event_type deviceid groupId :
  let out := get_events startTime endTime event_type deviceid groupId
               (client_at base_url tok w log) in
  ∃ query,
    let req := get_request (base_url +:+ "/api/reports/events") (Some query) None in
    out.2 = client_at base_url tok (send req w).2 (log ++ [req])%list ∧
    dispatches out.1 (send req w).1 UserPermissionException ∧
    dom query = {[KStr "from"; KStr "to"; KStr "groupId"; KStr "type"]}.
Proof.
  intros out. subst out. unfold get_events. cbv zeta.
  do 2 mstep.
  destruct (truthy (default PNone event_type)), (truthy (default PNone groupId));
    cbn [negb]; eexists; cbv zeta; unfold dispatches;
    match goal with
    | |- context [status_code (send ?r w).1 =? 200] => status_cases (send r w).1
    end; simpl;
    (split_and!;
       [reflexivity | intros; try unfold get_request, json_headers in *;
                      first [done | lia] ..]).
Qed.

(** [get_positions], [get_groups] and [get_route] send one GET each, with
    every parameter of the method in the query, [None] for one left out;
    the parsed body is returned on 200, [UserPermissionException] raised on
    400 and [TraccarApiException] with the body on any other status. *)
Theorem read_reports_spec base_url tok w log :
  let st := client_at base_url tok w log in
  let after req := client_at base_url tok (send req w).2 (log ++ [req])%list in
  (∀ deviceId startTime endTime position_id,
     let req := get_request (base_url +:+ "/api/positions")
       (Some (dict_lit [
          (KStr "deviceId", default PNone deviceId);
          (KStr "from", default PNone startTime);
          (KStr "to", default PNone endTime);
          (KStr "id", default PNone position_id)])) None in
     let out := get_positions deviceId startTime endTime position_id st in
     out.2 = after req ∧ dispatches out.1 (send req w).1 UserPermissionException) ∧
  (∀ userId,
     let req := get_request (base_url +:+ "/api/groups")
       (Some (dict_lit [(KStr "userId", default PNone userId)])) None in
     let out := get_groups userId st in
     out.2 = after req ∧ dispatches out.1 (send req w).1 UserPermissionException) ∧
  (∀ deviceid startTime endTime,
     let req := get_request (base_url +:+ "/api/reports/route")
       (Some (dict_lit [
          (KStr "deviceId", deviceid);
          (KStr "from", startTime);
          (KStr "to", endTime)])) (Some json_headers) in
     let out := get_route deviceid startTime endTime st in
     out.2 = after req ∧ dispatches out.1 (send req w).1 UserPermissionException).
Proof.
  intros st after. subst st after. split_and!; intros *; subst out.
  - unfold get_positions. cbv zeta. run_once req.
  - unfold get_groups. cbv zeta. run_once req.
  - unfold get_route. cbv zeta. run_once req.
Qed.

(** [create_device] and [create_user] post a JSON body with [id = -1] and
    every parameter of the method, an optional one at the default of the
    signature when left out ([create_user] adds the attribute
    [speedUnit = "kmh"]); the parsed body is returned on 200,
    [BadRequestException] with the response body raised on 400. *)
Theorem create_device_user_spec base_url tok w log :
  let st := client_at base_url tok w log in
  let after req := client_at base_url tok (send req w).2 (log ++ [req])%list in
  (∀ name unique_id group_id phone model contact category,
     let out := create_device name unique_id group_id phone model contact category st in
     ∃ body,
       let req := post_json (base_url +:+ "/api/devices") body in
       out.2 = after req ∧
       dispatches out.1 (send req w).1 (BadRequestException (text (send req w).1)) ∧
       body !! KStr "id" = Some (PInt (-1)) ∧
       body !! KStr "name" = Some name ∧
       body !! KStr "uniqueId" = Some unique_id ∧
       body !! KStr "phone" = Some (default (PStr "") phone) ∧
       body !! KStr "model" = Some (default (PStr "") model) ∧
       body !! KStr "contact" = Some (default (PStr "") contact) ∧
       body !! KStr "category" = Some (default PNone category) ∧
       body !! KStr "groupId" = Some (default (PInt 0) group_id)) ∧
  (∀ name email administrator token,
     let out := create_user name email administrator token st in
     ∃ body,
       let req := post_json (base_url +:+ "/api/users") body in
       out.2 = after req ∧
       dispatches out.1 (send req w).1 (BadRequestException (text (send req w).1)) ∧
       body !! KStr "id" = Some (PInt (-1)) ∧
       body !! KStr "name" = Some name ∧
       body !! KStr "email" = Some email ∧
       body !! KStr "administrator" = Some (default (PBool false) administrator) ∧
       body !! KStr "token" = Some (default PNone token) ∧
       body !! KStr "attributes"
       = Some (PDict {[ KStr "speedUnit" := PStr "kmh" ]})).
Proof.
  intros st after. subst st after. split; intros *; subst out.
  - rewrite create_device_run. eexists. cbv zeta.
    split_and!; try reflexivity.
    unfold dispatches, write_outcome.
    match goal with
    | |- context [status_code ?r =? _] => status_cases r
    end; repeat split; intros; first [done | lia].
  - rewrite create_user_run. eexists. cbv zeta.
    split_and!; try reflexivity.
    unfold dispatches, write_outcome.
    match goal with
    | |- context [status_code ?r =? _] => status_cases r
    end; repeat split; intros; first [done | lia].
Qed.

(** *** What every call sends *)

Lemma string_app_assoc (s1 s2 s3 : string) :
  (s1 +:+ s2) +:+ s3 = s1 +:+ s2 +:+ s3.
Proof.
  induction s1 as [|c s1 IH]; [done |].
  change (String c ((s1 +:+ s2) +:+ s3) = String c (s1 +:+ s2 +:+ s3)).
  by rewrite IH.
Qed.

Lemma api_url_path base_url suffix :
  api_url base_url (base_url +:+ "/api/" +:+ suffix).
Proof. by exists suffix. Qed.

Lemma api_url_slash base_url u v :
  api_url base_url u → api_url base_url (format_slash u v).
Proof.
  intros [suffix ->]. exists (suffix +:+ "/" +:+ py_str v).
  unfold format_slash. by rewrite !string_app_assoc.
Qed.

Lemma client_at_nil base_url tok w log :
  client_at base_url tok w log = client_at base_url tok w (log ++ [])%list.
Proof. by rewrite app_nil_r. Qed.

Lemma client_at_two base_url tok w log r1 r2 :
  client_at base_url tok w ((log ++ [r1]) ++ [r2])%list
  = client_at base_url tok w (log ++ [r1; r2])%list.
Proof. by rewrite <- app_assoc. Qed.

Lemma getitem0_Raise v e :
  getitem0 v = Raise e → ∀ name, e ≠ KeyError (PStr name).
Proof.
  destruct v as [| | |[|]|[|]|d]; simpl; try (by intros [= <-]).
  unfold dict_getitem. destruct (d !! KInt 0); [done |]. by intros [= <-].
Qed.

Lemma py_items_Raise v e : py_items v = Raise e → e = AttributeError.
Proof. destruct v; simpl; by intros [=]. Qed.

Ltac exec :=
  repeat first
    [ mstep
    | erewrite bind_Raise by reflexivity
    | rewrite dict_comp_overlay
    | rewrite get_devices_by_id; cbv zeta
    | rewrite get_geofences_by_id; cbv zeta
    | progress cbn [negb from_option]
    | match goal with
      | |- context [negb (truthy ?q)] => destruct (truthy q) eqn:?
      | |- context [match to_key ?q with _ => _ end] => destruct (to_key q) eqn:?
      | |- context [ne_zero ?d] => destruct (ne_zero d) eqn:?
      | |- context [status_code ?r =? ?n] => destruct (Z.eqb_spec (status_code r) n)
      | |- context [response_json _] => unfold response_json
      | |- context [match json_body ?r with _ => _ end] => destruct (json_body r) eqn:?
      | |- context [(get_devices ?q ?p ≫= ?f) ?st] => rewrite (bind_eq (get_devices q p) f st)
      | |- context [(get_geofences ?q ?p ≫= ?f) ?st] =>
          rewrite (bind_eq (get_geofences q p) f st)
      | |- context [lift ?r ≫= _] => destruct r eqn:?
      end ].

Ltac api_path :=
  lazymatch goal with
  | |- api_url ?b (?b +:+ ?p) =>
      let suffix := eval vm_compute in (String.substring 5%nat (String.length p) p) in
      exists suffix; reflexivity
  end.

Ltac traffic_done :=
  cbn [lift raise mret M_ret fst snd is_update];
  eexists _, _, _; split_and!;
  [ first [ reflexivity | apply client_at_nil | apply client_at_two ]
  | simpl; lia
  | repeat first
      [ by apply Forall_nil
      | apply Forall_cons; split;
        [ cbn [url fetch_request get_request]; try apply api_url_slash; api_path |] ]
  | intros ? Hn;
    first
      [ discriminate Hn
      | injection Hn as ->;
        match goal with
        | H : getitem0 _ = Raise _ |- _ => by eapply getitem0_Raise in H
        | H : py_items _ = Raise _ |- _ => by apply py_items_Raise in H
        end ] ].

Lemma call_traffic base_url tok w log c :
  let out := run c (client_at base_url tok w log) in
  ∃ tok' w' new,
    out.2 = client_at base_url tok' w' (log ++ new)%list ∧
    (length new ≤ if is_update c then 2 else 1)%nat ∧
    Forall (λ r, api_url base_url (url r)) new ∧
    ∀ name, out.1 ≠ Raise (KeyError (PStr name)).
Proof.
  intros out. subst out. destruct c; cbn [run];
    lazymatch goal with
    | |- context [snd (?f _ _ _ _ _ _ _ _ (client_at _ _ _ _))] => unfold f
    | |- context [snd (?f _ _ _ _ _ _ _ (client_at _ _ _ _))] => unfold f
    | |- context [snd (?f _ _ _ _ _ _ (client_at _ _ _ _))] => unfold f
    | |- context [snd (?f _ _ _ _ _ (client_at _ _ _ _))] => unfold f
    | |- context [snd (?f _ _ _ _ (client_at _ _ _ _))] => unfold f
    | |- context [snd (?f _ _ _ (client_at _ _ _ _))] => unfold f
    | |- context [snd (?f _ _ (client_at _ _ _ _))] => unfold f
    | |- context [snd (?f _ (client_at _ _ _ _))] => unfold f
    | |- context [snd (?f (client_at _ _ _ _))] => unfold f
    end; cbv zeta; exec; traffic_done.
Qed.

(** On a client built on [base_url], at any point of its life, a call sends
    at most one request, an update at most two, each to a URL that is
    [base_url], ["/api/"] and a suffix; it leaves the URL table as
    [__init__] built it and never fails to find a resource name in it. *)
Theorem every_call_traffic base_url w cs c :
  let st := run_all cs (new_client base_url w) in
  let out := run c st in
  ∃ new,
    sent out.2 = (sent st ++ new)%list ∧
    (length new ≤ if is_update c then 2 else 1)%nat ∧
    Forall (λ r, api_url base_url (url r)) new ∧
    _urls (self out.2) = _urls (__init__ base_url) ∧
    ∀ name, out.1 ≠ Raise (KeyError (PStr name)).
Proof.
  intros st out. subst out st.
  destruct (run_all_client_at base_url w cs) as (tok & w' & log & ->).
  destruct (call_traffic base_url tok w' log c)
    as (tok' & w'' & new & Hst & Hlen & Hall & Hkey).
  exists new. rewrite Hst. by split_and!.
Qed.

(** Over the life of a client: after any calls on a client built on
    [base_url], whatever they returned or raised, every request sent went
    to a URL under [base_url/api/], there are at most two requests per
    call, and the URL table is the one [__init__] built. *)
Theorem session_traffic base_url w cs :
  let st := run_all cs (new_client base_url w) in
  _urls (self st) = _urls (__init__ base_url) ∧
  Forall (λ r, api_url base_url (url r)) (sent st) ∧
  (length (sent st) ≤ 2 * length cs)%nat.
Proof.
  intros st. subst st.
  assert (H : ∃ tok w' log,
    run_all cs (new_client base_url w) = client_at base_url tok w' log ∧
    Forall (λ r, api_url base_url (url r)) log ∧
    (length log ≤ 2 * length cs)%nat).
  { unfold run_all. induction cs as [|c cs IH] using rev_ind.
    - exists (PStr ""), w, []. by split_and!.
    - destruct IH as (tok & w' & log & Heq & Hall & Hlen). rewrite foldl_snoc, Heq.
      destruct (call_traffic base_url tok w' log c) as (tok' & w'' & new & -> & Hn & Hnew & _).
      exists tok', w'', (log ++ new)%list. split_and!; [done | |].
      + apply Forall_app. by split.
      + rewrite !length_app. simpl.
        destruct (is_update c); lia. }
  destruct H as (tok & w' & log & -> & Hall & Hlen). by split_and!.
Qed.

(** *** The cached token is never read *)

Lemma blind_ret {A} (a : A) : token_blind (mret a).
Proof. by intros st1 st2 H. Qed.

Lemma blind_raise {A} e : token_blind (raise (A:=A) e).
Proof. by intros st1 st2 H. Qed.

Lemma blind_lift {A} (r : result A) : token_blind (lift r).
Proof. by intros st1 st2 H. Qed.

Lemma blind_urls_getitem name : token_blind (urls_getitem name).
Proof.
  intros st1 st2 H. unfold urls_getitem. destruct H as (Hu & Hn & Hs).
  rewrite Hu. by destruct (_ !! _).
Qed.

Lemma blind_set_token t : token_blind (set_token t).
Proof. intros st1 st2 (Hu & Hn & Hs). by split. Qed.

Lemma blind_session_request r : token_blind (session_request r).
Proof.
  intros st1 st2 (Hu & Hn & Hs). unfold session_request. rewrite Hn, Hs.
  by destruct (send r (net st2)).
Qed.

Lemma blind_bind {A B} (m : M A) (f : A → M B) :
  token_blind m → (∀ a, token_blind (f a)) → token_blind (m ≫= f).
Proof.
  intros Hm Hf st1 st2 H. unfold mbind, M_bind.
  destruct (Hm st1 st2 H) as [Hr Hst].
  destruct (m st1) as [[a|e] st1'], (m st2) as [[a'|e'] st2']; simpl in *;
    try discriminate Hr.
  - injection Hr as <-. by apply Hf.
  - injection Hr as <-. by split.
Qed.

Ltac blind :=
  repeat first
    [ apply blind_ret | apply blind_raise | apply blind_lift
    | apply blind_urls_getitem | apply blind_session_request
    | apply blind_set_token
    | apply blind_bind; [| intros ?]
    | match goal with
      | |- token_blind (if ?b then _ else _) => destruct b
      | |- token_blind (match ?o with Some _ => _ | None => _ end) => destruct o
      | |- token_blind (from_option _ _ ?o) => destruct o; cbn [from_option]
      end ].

(** No method reads the cached token: run from two states of a client that
    differ in [_token] only, a call returns or raises the same, sends the
    same requests and leaves the transport in the same state.  The token
    [login_with_token] caches is never put on a later request. *)
Theorem cached_token_never_read c base_url tok1 tok2 w log :
  let out1 := run c (client_at base_url tok1 w log) in
  let out2 := run c (client_at base_url tok2 w log) in
  out1.1 = out2.1 ∧ sent out1.2 = sent out2.2 ∧ net out1.2 = net out2.2.
Proof.
  intros out1 out2. subst out1 out2.
  assert (Hb : token_blind (run c)).
  { destruct c; cbn [run];
      lazymatch goal with
      | |- token_blind (?f _ _ _ _ _ _ _ _) => unfold f
      | |- token_blind (?f _ _ _ _ _ _ _) => unfold f
      | |- token_blind (?f _ _ _ _ _ _) => unfold f
      | |- token_blind (?f _ _ _ _ _) => unfold f
      | |- token_blind (?f _ _ _ _) => unfold f
      | |- token_blind (?f _ _ _) => unfold f
      | |- token_blind (?f _ _) => unfold f
      | |- token_blind (?f _) => unfold f
      | |- token_blind ?f => unfold f
      end;
      unfold get_devices, get_geofences,
        session_get, session_post, session_put, session_delete; cbv zeta; blind. }
  destruct (Hb (client_at base_url tok1 w log) (client_at base_url tok2 w log))
    as (Hr & _ & Hn & Hs); [done |]. by split_and!.
Qed.

(** [create_geofence] posts [id = -1], the name, the description (the empty
    string when left out) and the area converted with [str]; the parsed
    body is returned on 200, [BadRequestException] with the response body
    raised on 400, [TraccarApiException] on any other status. *)
Theorem create_geofence_spec base_url tok w log
    name area description calendarId attributes :
  let out := create_geofence name area description calendarId attributes
               (client_at base_url tok w log) in
  ∃ body,
    let req := post_json (base_url +:+ "/api/geofences") body in
    out.2 = client_at base_url tok (send req w).2 (log ++ [req])%list ∧
    dispatches out.1 (send req w).1 (BadRequestException (text (send req w).1)) ∧
    body !! KStr "id" = Some (PInt (-1)) ∧
    body !! KStr "name" = Some name ∧
    body !! KStr "description" = Some (default (PStr "") description) ∧
    body !! KStr "area" = Some (PStr (py_str area)).
Proof.
  intros out. subst out. rewrite create_geofence_run. eexists. cbv zeta.
  split_and!; try reflexivity.
  unfold dispatches, write_outcome.
  match goal with
  | |- context [status_code ?r =? _] => status_cases r
  end; repeat split; intros; first [done | lia].
Qed.

End Methods.

(** ** The statements at concrete calls *)

Lemma login_with_token_spec_witness :
  let out := login_with_token (answer 200 (Some (PDict ∅))) (PStr "T0K3N")
               (client_at "http://host" (PStr "") () []) in
  _token (self out.2) = PStr "T0K3N" ∧ out.1 = Ok (PDict ∅).
Proof.
  apply (login_with_token_spec (answer 200 (Some (PDict ∅)))
           "http://host" (PStr "") () [] (PStr "T0K3N")).
  reflexivity.
Defined.

Lemma login_with_credentials_spec_witness :
  (login_with_credentials (answer 401 None) (PStr "me@host") (PStr "wrong")
     (client_at "http://host" (PStr "") () [])).1
  = Raise ForbiddenAccessException.
Proof.
  apply (login_with_credentials_spec (answer 401 None)
           "http://host" (PStr "") () [] (PStr "me@host") (PStr "wrong")).
  reflexivity.
Defined.

(** [update_device(7, name="X")] on the device with [phone="555"]. *)
Lemma update_overlays_supplied_fields_witness :
  ∃ record,
    sent (update_device example_server example_str example_dumps (PInt 7)
            (Some (PStr "X")) None None None None None None
            (client_at "http://host" (PStr "") () [])).2
    = [fetch_request "http://host/api/devices" (PInt 7);
       put_record example_dumps "http://host/api/devices/7" record] ∧
    record !! KStr "name" = Some (PStr "X") ∧
    record !! KStr "phone" = Some (PStr "555").
Proof.
  apply (proj2 (proj2 (update_overlays_supplied_fields
           example_server example_str example_dumps))
         "http://host" (PStr "") () [] (PInt 7) example_device [] (PStr "old"));
    reflexivity.
Defined.

(** [update_device(7, model="M")] on a record without [model]. *)
Lemma update_keeps_key_set_witness :
  ∃ record,
    sent (update_device example_server example_str example_dumps (PInt 7)
            None None None None (Some (PStr "M")) None None
            (client_at "http://host" (PStr "") () [])).2
    = [fetch_request "http://host/api/devices" (PInt 7);
       put_record example_dumps "http://host/api/devices/7" record] ∧
    dom record = dom example_device ∧
    record !! KStr "model" = None.
Proof.
  destruct (proj1 (update_keeps_key_set example_server example_str example_dumps)
              "http://host" (PStr "") () [] (PInt 7)
              None None None None (Some (PStr "M")) None None example_device []
              eq_refl eq_refl) as (record & Hsent & _ & Hdom & Hnone).
  exists record. split_and!; [exact Hsent | exact Hdom | by apply Hnone].
Defined.

(** [set_permissions(userId=1, deviceId=2)] answered with 204. *)
Lemma set_permissions_spec_witness :
  let body := dict_lit [(KStr "userId", PInt 1); (KStr "deviceId", PInt 2)] in
  let out := set_permissions (answer 204 None) (PInt 1) (Some (PInt 2)) None
               (client_at "http://host" (PStr "") () []) in
  sent out.2 = [post_json "http://host/api/permissions" body] ∧
  out.1 = Ok (PDict body).
Proof.
  destruct (set_permissions_spec (answer 204 None) "http://host" (PStr "") () []
              (PInt 1) (Some (PInt 2)) None eq_refl) as (Hsent & H204 & _).
  split; [exact Hsent | by apply H204].
Defined.

(** [get_devices(query="", params=5)] *)
Lemma falsy_query_sends_no_params_witness :
  (get_devices (answer 200 (Some (PList []))) (Some (PStr "")) (Some (PInt 5))
     (client_at "http://host" (PStr "") () []))
  = (Ok (PList []),
     client_at "http://host" (PStr "") ()
       [get_request "http://host/api/devices" None None]).
Proof.
  destruct (proj1 (falsy_query_sends_no_params (answer 200 (Some (PList [])))
              "http://host" (PStr "") () [] (Some (PStr "")) (Some (PInt 5)) eq_refl))
    as [Hst Hres].
  rewrite (surjective_pairing (get_devices _ _ _ _)).
  by rewrite Hst, Hres.
Defined.

(** C8, the claim as the spec words it: [get_events] called with the
    supplied values [event_type=""] and [groupId=0] does not send them. *)
Lemma get_events_supplied_falsy_replaced :
  ∃ query,
    sent (get_events (answer 200 (Some (PList []))) (PStr "2024-01-01") (PStr "2024-01-02")
            (Some (PStr "")) None (Some (PInt 0))
            (client_at "http://host" (PStr "") () [])).2
    = [get_request "http://host/api/reports/events" (Some query) None] ∧
    query !! KStr "type" = Some (PStr "%") ∧
    query !! KStr "groupId" = Some (PStr "1") ∧
    ¬ (query !! KStr "type" = Some (PStr "") ∧ query !! KStr "groupId" = Some (PInt 0)).
Proof.
  eexists. split_and!; [reflexivity | reflexivity | reflexivity |].
  intros [H _]. vm_compute in H. discriminate H.
Defined.

(** C4 at [create_geofence("home", "CIRCLE (1 2, 30)", calendarId=5,
    attributes={"color": "red"})]: the body posted has neither
    [calendarId] nor [attributes]. *)
Theorem create_geofence_omits_calendarId_attributes :
  ∃ body,
    sent (create_geofence (answer 200 (Some (PDict ∅))) example_str
            (PStr "home") (PStr "CIRCLE (1 2, 30)") None (Some (PInt 5))
            (Some (PDict (dict_lit [(KStr "color", PStr "red")])))
            (client_at "http://host" (PStr "") () [])).2
    = [post_json "http://host/api/geofences" body] ∧
    dom body = {[KStr "id"; KStr "name"; KStr "description"; KStr "area"]} ∧
    body !! KStr "calendarId" = None ∧
    body !! KStr "attributes" = None.
Proof. eexists. split_and!; reflexivity. Qed.

(** ** The other methods at concrete calls *)

(** [delete_device(7)] answered with 200, not 204. *)
Lemma delete_spec_witness :
  (delete_device (answer 200 (Some PNone)) example_str (PInt 7)
     (client_at "http://host" (PStr "") () [])).1
  = Raise (TraccarApiException "reply").
Proof.
  apply (proj1 (delete_spec (answer 200 (Some PNone)) example_str
                  "http://host" (PStr "") () [] (PInt 7))).
  done.
Defined.

(** [get_devices(query="id", params=5)] answered with 400. *)
Lemma filtered_lookup_spec_witness :
  (get_devices (answer 400 None) (Some (PStr "id")) (Some (PInt 5))
     (client_at "http://host" (PStr "") () [])).1
  = Raise (ObjectNotFoundException (PInt 5) "Device").
Proof.
  destruct (proj1 (filtered_lookup_spec (answer 400 None) "http://host" (PStr "") () []
                     (Some (PStr "id")) (Some (PInt 5)) (KStr "id") eq_refl eq_refl))
    as (_ & _ & H400 & _).
  by apply H400.
Defined.

(** [get_devices(query=["id"], params=5)] *)
Lemma unhashable_query_raises_witness :
  get_devices (answer 200 (Some (PList []))) (Some (PList [PStr "id"])) (Some (PInt 5))
    (client_at "http://host" (PStr "") () [])
  = (Raise TypeError, client_at "http://host" (PStr "") () []).
Proof.
  apply (unhashable_query_raises (answer 200 (Some (PList []))) "http://host" (PStr "")
           () [] (Some (PList [PStr "id"])) (Some (PInt 5)) eq_refl eq_refl).
Defined.

(** [set_permissions(1, deviceId=2, groupId=3)] answered with 200. *)
Lemma set_permissions_device_first_witness :
  let st := client_at "http://host" (PStr "") () [] in
  set_permissions (answer 200 None) (PInt 1) (Some (PInt 2)) (Some (PInt 3)) st
  = set_permissions (answer 200 None) (PInt 1) (Some (PInt 2)) None st ∧
  (set_permissions (answer 200 None) (PInt 1) (Some (PInt 2)) (Some (PInt 3)) st).1
  = Raise (TraccarApiException "reply").
Proof.
  destruct (set_permissions_device_first (answer 200 None) "http://host" (PStr "") () []
              (PInt 1) (PInt 2) (Some (PInt 3)) eq_refl) as (Heq & _ & Hother).
  split; [exact Heq | by apply Hother].
Defined.

(** [update_device(9, name="X")] when the server answers the fetch with 400. *)
Lemma update_stops_when_fetch_fails_witness :
  update_device (answer 400 None) example_str example_dumps (PInt 9)
    (Some (PStr "X")) None None None None None None
    (client_at "http://host" (PStr "") () [])
  = (Raise (ObjectNotFoundException (PInt 9) "Device"),
     client_at "http://host" (PStr "") ()
       [fetch_request "http://host/api/devices" (PInt 9)]).
Proof.
  destruct (proj1 (update_stops_when_fetch_fails (answer 400 None) example_str
                     example_dumps)
              "http://host" (PStr "") () [] (PInt 9)
              (Some (PStr "X")) None None None None None None)
    as (Hst & H400 & _); [done |].
  rewrite (surjective_pairing (update_device _ _ _ _ _ _ _ _ _ _ _ _)).
  rewrite Hst, H400; done.
Defined.

(** [update_device(9, name="X")] when the server lists no device 9. *)
Lemma update_without_record_witness :
  update_device (answer 200 (Some (PList []))) example_str example_dumps (PInt 9)
    (Some (PStr "X")) None None None None None None
    (client_at "http://host" (PStr "") () [])
  = (Raise IndexError,
     client_at "http://host" (PStr "") ()
       [fetch_request "http://host/api/devices" (PInt 9)]).
Proof.
  apply (proj1 (update_without_record (answer 200 (Some (PList []))) example_str
                  example_dumps)
           "http://host" (PStr "") () [] (PInt 9)
           (Some (PStr "X")) None None None None None None eq_refl).
  reflexivity.
Defined.

(** [update_device(7)] *)
Lemma update_without_fields_resubmits_witness :
  sent (update_device example_server example_str example_dumps (PInt 7)
          None None None None None None None
          (client_at "http://host" (PStr "") () [])).2
  = [fetch_request "http://host/api/devices" (PInt 7);
     put_record example_dumps "http://host/api/devices/7" example_device].
Proof.
  apply (proj1 (update_without_fields_resubmits example_server example_str
                  example_dumps)
           "http://host" (PStr "") () [] (PInt 7) example_device [] eq_refl eq_refl).
Defined.

(** Overlaying [{name: "A"}] and then [{name: None, phone: "1"}]. *)
Lemma overlay_composes_witness :
  ∃ record,
    dict_comp (overlay (dict_lit [(KStr "name", PStr "A")])) example_device
      ≫= dict_comp (overlay (dict_lit [(KStr "name", PNone); (KStr "phone", PStr "1")]))
    = Ok record ∧
    record !! KStr "name" = Some (PStr "A") ∧
    record !! KStr "phone" = Some (PStr "1") ∧
    record !! KStr "uniqueId" = Some (PStr "u-7").
Proof.
  destruct (proj1 (overlay_composes (dict_lit [(KStr "name", PStr "A")])
                     (dict_lit [(KStr "name", PNone); (KStr "phone", PStr "1")])
                     example_device)) as (record & Hcomp & _ & Hget).
  exists record. split_and!; [exact Hcomp | ..].
  - exact (Hget (KStr "name") (PStr "old") eq_refl).
  - exact (Hget (KStr "phone") (PStr "555") eq_refl).
  - exact (Hget (KStr "uniqueId") (PStr "u-7") eq_refl).
Defined.

(** [login_with_token("T")] answered with 404 on a client that caches ["old"]. *)
Lemma raised_call_keeps_self_witness :
  self (run (answer 404 None) example_str example_dumps (Login_with_token (PStr "T"))
          (client_at "http://host" (PStr "old") () [])).2
  = self (client_at "http://host" (PStr "old") () []).
Proof.
  apply (raised_call_keeps_self (answer 404 None) example_str example_dumps
           (Login_with_token (PStr "T")) (client_at "http://host" (PStr "old") () [])
           InvalidTokenException); done.
Defined.

(** [login_with_token("T")] answered with 200 and a body that is not JSON. *)
Lemma token_cached_before_body_is_read_witness :
  login_with_token (answer 200 None) (PStr "T")
    (client_at "http://host" (PStr "") () [])
  = (Raise JSONDecodeError,
     client_at "http://host" (PStr "T") ()
       [token_request "http://host/api/session" (PStr "T")]).
Proof.
  apply (token_cached_before_body_is_read (answer 200 None) "http://host" (PStr "")
           () [] (PStr "T") eq_refl eq_refl).
Defined.

(** [get_devices(params=5)] answered with 400. *)
Lemma falsy_query_status_400_witness :
  (get_devices (answer 400 None) None (Some (PInt 5))
     (client_at "http://host" (PStr "") () [])).1
  = Raise (ObjectNotFoundException (PInt 5) "Device").
Proof.
  apply (falsy_query_status_400 (answer 400 None) "http://host" (PStr "") () []
           None (Some (PInt 5)) eq_refl eq_refl).
Defined.
